(** * flam: the command-line client of the Dragon registry

    A shallow embedding of [flam.js] (and of the three other revisions of
    the same script) together with the part of the JavaScript runtime the
    script relies on: JSON values and their coercions, [JSON.parse] and
    [JSON.stringify], POSIX [path.join], a file system, the console and an
    HTTP client in the style of axios.

    Strings are byte strings holding UTF-8 text.  Paths are POSIX paths. *)

From Stdlib Require Import Ascii String DecimalString DecimalNat.
From stdpp Require Import gmap strings list.

Set Warnings "-register-all".

(** ** Characters that cannot be written inside a literal *)

Definition dquote : ascii := "034"%char.
Definition newline : ascii := "010"%char.
Definition ch (c : ascii) : string := String c EmptyString.

(** ** JavaScript values *)

Module JS.

(** The values this program handles: [undefined] and whatever [JSON.parse]
    produces.  A number is identified by its rendering ([Number::toString]),
    the only thing (besides its truthiness) the program observes of it. *)
Inductive value :=
| Undefined
| Null
| Bool (b : bool)
| Num (repr : string)
| Str (s : string)
| Arr (items : list value)
| Obj (props : list (string * value)).

(** What an axios response carries in [data]: a decoded body, or the body as
    a stream of chunks when [responseType: 'stream'] was asked for. *)
Inductive resp_data :=
| DValue (v : value)
| DStream (chunks : list string).

(** A thrown error: [message], and for an HTTP error [response.data]. *)
Record js_error := mk_error {
  message : string;
  response : option resp_data
}.

Inductive result (A : Type) :=
| Ok (a : A)
| Throw (e : js_error).
Arguments Ok {A} a.
Arguments Throw {A} e.

Definition plain_error (msg : string) : js_error := mk_error msg None.

Definition nat_repr (n : nat) : string := NilZero.string_of_uint (Nat.to_uint n).

Fixpoint join (sep : string) (l : list string) : string :=
  match l with
  | [] => ""
  | [x] => x
  | x :: r => x +:+ sep +:+ join sep r
  end.

(** [String(v)], which is also what a template literal and chalk apply,
    for a value that prints (see [printable]). *)
Fixpoint to_string (v : value) : string :=
  match v with
  | Undefined => "undefined"
  | Null => "null"
  | Bool true => "true"
  | Bool false => "false"
  | Num r => r
  | Str s => s
  | Arr l =>
      join "," (map (fun x => match x with
                              | Undefined | Null => ""
                              | _ => to_string x
                              end) l)
  | Obj _ => "[object Object]"
  end.

(** [String(v)] throws a [TypeError] on an object that has an own property
    [toString] (a value out of JSON is never callable), also inside an
    array.  [to_string] is the text of the values that print: the
    properties that show a value ask for [printable]. *)
Fixpoint printable (v : value) : bool :=
  match v with
  | Arr l => forallb printable l
  | Obj props =>
      negb (existsb (fun '(k, _) => String.eqb k "toString") props)
  | _ => true
  end.

(** What Node accepts as the value of a header, for a text in ASCII: a tab
    and the characters from the space to the tilde. *)
Fixpoint header_safe (s : string) : bool :=
  match s with
  | EmptyString => true
  | String c r =>
      let n := N_of_ascii c in
      ((n =? 9)%N || ((32 <=? n)%N && (n <=? 126)%N)) && header_safe r
  end.

(** A text of ASCII characters. *)
Fixpoint ascii_text (s : string) : bool :=
  match s with
  | EmptyString => true
  | String c r => (N_of_ascii c <? 128)%N && ascii_text r
  end.

(** [!!v]; a number coming from JSON is falsy exactly when it is zero. *)
Definition truthy (v : value) : bool :=
  match v with
  | Undefined | Null => false
  | Bool b => b
  | Num r => negb (String.eqb r "0")
  | Str s => negb (String.eqb s "")
  | Arr _ | Obj _ => true
  end.

(** [a || b] *)
Definition or_else (a b : value) : value := if truthy a then a else b.

Definition nullish (v : value) : bool :=
  match v with
  | Undefined | Null => true
  | _ => false
  end.

(** A property key that is an array index: the digits of a number below
    [2^32 - 1], written without a leading zero. *)
Fixpoint all_digits (s : string) : bool :=
  match s with
  | EmptyString => true
  | String c r =>
      (48 <=? N_of_ascii c)%N && (N_of_ascii c <=? 57)%N && all_digits r
  end.

Fixpoint digits_N (acc : N) (s : string) : N :=
  match s with
  | EmptyString => acc
  | String c r => digits_N (acc * 10 + (N_of_ascii c - 48))%N r
  end.

Definition index_key (k : string) : option N :=
  match k with
  | EmptyString => None
  | String c r =>
      if all_digits k && (negb (Ascii.eqb c "0") || String.eqb r "")
         && (String.length k <=? 10)%nat && (digits_N 0 k <? 4294967295)%N
      then Some (digits_N 0 k)
      else None
  end.

Fixpoint has_key (props : list (string * value)) (k : string) : bool :=
  match props with
  | [] => false
  | (k', _) :: r => String.eqb k' k || has_key r k
  end.

Fixpoint obj_replace (props : list (string * value)) (k : string) (v : value)
  : list (string * value) :=
  match props with
  | [] => []
  | (k', v') :: r =>
      if String.eqb k' k then (k', v) :: r else (k', v') :: obj_replace r k v
  end.

Fixpoint obj_insert_index (props : list (string * value)) (n : N) (k : string)
  (v : value) : list (string * value) :=
  match props with
  | [] => [(k, v)]
  | (k', v') :: r =>
      match index_key k' with
      | Some n' =>
          if (n <? n')%N then (k, v) :: props else (k', v') :: obj_insert_index r n k v
      | None => (k, v) :: props
      end
  end.

(** The own properties of an object in the order JavaScript lists them:
    the array-index keys first, in ascending order, then the other keys in
    the order they were added.  Assigning an existing key replaces its
    value in place. *)
Definition obj_set (props : list (string * value)) (k : string) (v : value)
  : list (string * value) :=
  if has_key props k then obj_replace props k v
  else
    match index_key k with
    | Some n => obj_insert_index props n k v
    | None => props ++ [(k, v)]
    end.

Fixpoint obj_get (props : list (string * value)) (k : string) : value :=
  match props with
  | [] => Undefined
  | (k', v') :: r => if String.eqb k' k then v' else obj_get r k
  end.

(** Number of UTF-16 code units of a UTF-8 text: one per character, two for
    the characters outside the basic plane (four-byte sequences). *)
Fixpoint utf16_length (s : string) : nat :=
  match s with
  | EmptyString => 0
  | String c r =>
      let n := N_of_ascii c in
      ((if (n <? 128)%N then 1
        else if (n <? 192)%N then 0
        else if (n <? 240)%N then 1
        else 2) + utf16_length r)%nat
  end.

(** [v.k] for the property names this program reads ([length] and the field
    names of the registry's records): a [TypeError] on [null] and
    [undefined], the own property of an object, [length] of an array or a
    string, [undefined] otherwise. *)
Definition get_prop (v : value) (k : string) : result value :=
  match v with
  | Undefined =>
      Throw (plain_error
        ("Cannot read properties of undefined (reading '" +:+ k +:+ "')"))
  | Null =>
      Throw (plain_error
        ("Cannot read properties of null (reading '" +:+ k +:+ "')"))
  | Obj props => Ok (obj_get props k)
  | Arr l =>
      Ok (if String.eqb k "length" then Num (nat_repr (length l)) else Undefined)
  | Str s =>
      Ok (if String.eqb k "length" then Num (nat_repr (utf16_length s))
          else Undefined)
  | Bool _ | Num _ => Ok Undefined
  end.

(** [a === b] against a number literal. *)
Definition strict_eq_num (v : value) (n : nat) : bool :=
  match v with
  | Num r => String.eqb r (nat_repr n)
  | _ => false
  end.

(** [error.response?.data?.error] *)
Definition server_error_field (e : js_error) : value :=
  match response e with
  | None => Undefined
  | Some (DStream _) => Undefined
  | Some (DValue d) =>
      match get_prop d "error" with
      | Ok v => v
      | Throw _ => Undefined
      end
  end.

End JS.
Export JS.

(** ** Numbers

    A number of a JSON text is the double nearest to its literal, and is
    printed with the fewest digits that read back as that double.  [Num]
    holds that text. *)

Module Number.

(** A positive double: [m * 2^e], or infinity. *)
Inductive double :=
| Finite (m e : Z)
| Infinity.

(** The double nearest to [num / den] (both positive), ties to even:
    53 bits of mantissa, exponents down to [-1074] and an overflow from
    [2^1024] on. *)
Definition round_ratio (num den : Z) : double :=
  let l := (Z.log2 num - Z.log2 den)%Z in
  let above :=
    if (0 <=? l)%Z then (den * 2 ^ l <=? num)%Z else (den <=? num * 2 ^ (- l))%Z in
  let fl := if above then l else (l - 1)%Z in
  let e := Z.max (fl - 52) (-1074) in
  let n' := if (e <? 0)%Z then (num * 2 ^ (- e))%Z else num in
  let d' := if (e <? 0)%Z then den else (den * 2 ^ e)%Z in
  let q := (n' / d')%Z in
  let r := (n' mod d')%Z in
  let m := if (d' <? 2 * r)%Z || ((d' =? 2 * r)%Z && Z.odd q) then (q + 1)%Z else q in
  if (1024 <=? Z.log2 m + e)%Z then Infinity else Finite m e.

(** [s * 10^p] as a double. *)
Definition of_scaled (s p : Z) : double :=
  if (0 <=? p)%Z then round_ratio (s * 10 ^ p) 1 else round_ratio s (10 ^ (- p)).

Definition same (a b : double) : bool :=
  match a, b with
  | Finite m1 e1, Finite m2 e2 =>
      let e := Z.min e1 e2 in (m1 * 2 ^ (e1 - e) =? m2 * 2 ^ (e2 - e))%Z
  | Infinity, Infinity => true
  | _, _ => false
  end.

(** [n] with [10^(n-1) <= num/den < 10^n]. *)
Fixpoint exponent_up (fuel : nat) (num den n : Z) : Z :=
  match fuel with
  | O => n
  | S f => if (num <? den)%Z then n else exponent_up f num (den * 10)%Z (n + 1)%Z
  end.

Fixpoint exponent_down (fuel : nat) (num den n : Z) : Z :=
  match fuel with
  | O => n
  | S f => if (num * 10 <? den)%Z then exponent_down f (num * 10)%Z den (n - 1)%Z else n
  end.

Definition decimal_exponent (num den : Z) : Z :=
  if (num <? den)%Z then exponent_down 400 num den 0 else exponent_up 400 num den 0.

Fixpoint strip_zeros (fuel : nat) (s p : Z) : Z * Z :=
  match fuel with
  | O => (s, p)
  | S f => if (s mod 10 =? 0)%Z then strip_zeros f (s / 10)%Z (p + 1)%Z else (s, p)
  end.

(** The shortest decimal [s * 10^p] that reads back as the double
    [m * 2^e]; of two of a length, the nearer one, and the even one on a
    tie (Number::toString, steps 5 and following). *)
Fixpoint shortest (fuel : nat) (k : Z) (m e : Z) (num den n : Z) : Z * Z :=
  let p := (n - k)%Z in
  let xn := if (0 <=? p)%Z then num else (num * 10 ^ (- p))%Z in
  let xd := if (0 <=? p)%Z then (den * 10 ^ p)%Z else den in
  let lo := (xn / xd)%Z in
  let hi := (lo + 1)%Z in
  match fuel with
  | O => (lo, p)
  | S f =>
      let ok_lo := (0 <? lo)%Z && same (of_scaled lo p) (Finite m e) in
      let ok_hi := same (of_scaled hi p) (Finite m e) in
      let d_lo := (xn - lo * xd)%Z in
      let d_hi := (hi * xd - xn)%Z in
      if ok_lo && ok_hi then
        if (d_lo <? d_hi)%Z then (lo, p)
        else if (d_hi <? d_lo)%Z then (hi, p)
        else if Z.even lo then (lo, p) else (hi, p)
      else if ok_lo then (lo, p)
      else if ok_hi then (hi, p)
      else shortest f (k + 1)%Z m e num den n
  end.

Definition digits_of (s : Z) : string := NilZero.string_of_uint (N.to_uint (Z.to_N s)).

Fixpoint zeros (n : nat) : string :=
  match n with
  | O => ""
  | S k => String "0" (zeros k)
  end.

Fixpoint take_chars (n : nat) (s : string) : string :=
  match n, s with
  | S k, String c r => String c (take_chars k r)
  | _, _ => ""
  end.

Fixpoint drop_chars (n : nat) (s : string) : string :=
  match n, s with
  | S k, String _ r => drop_chars k r
  | _, _ => s
  end.

(** Number::toString for the digits [d] and the exponent [n] of
    [0.d * 10^n]. *)
Definition layout (d : string) (n : Z) : string :=
  let k := Z.of_nat (String.length d) in
  if (k <=? n)%Z && (n <=? 21)%Z then d +:+ zeros (Z.to_nat (n - k))
  else if (0 <? n)%Z && (n <=? 21)%Z then
    take_chars (Z.to_nat n) d +:+ "." +:+ drop_chars (Z.to_nat n) d
  else if (-6 <? n)%Z && (n <=? 0)%Z then "0." +:+ zeros (Z.to_nat (- n)) +:+ d
  else
    let e := (n - 1)%Z in
    let mantissa :=
      if (k =? 1)%Z then d else take_chars 1 d +:+ "." +:+ drop_chars 1 d in
    mantissa +:+ "e" +:+ (if (0 <=? e)%Z then "+" else "-") +:+ digits_of (Z.abs e).

(** The text of a positive double. *)
Definition render (x : double) : string :=
  match x with
  | Infinity => "Infinity"
  | Finite m e =>
      if (m =? 0)%Z then "0"
      else
        let num := if (0 <=? e)%Z then (m * 2 ^ e)%Z else m in
        let den := if (0 <=? e)%Z then 1%Z else (2 ^ (- e))%Z in
        let n := decimal_exponent num den in
        let '(s, p) := shortest 17 1 m e num den n in
        let '(s', p') := strip_zeros 400 s p in
        let d := digits_of s' in
        layout d (p' + Z.of_nat (String.length d))
  end.

Fixpoint digits_value (acc : Z) (s : string) : Z :=
  match s with
  | EmptyString => acc
  | String c r => digits_value (acc * 10 + Z.of_N (N_of_ascii c - 48))%Z r
  end.

(** The double a decimal literal denotes: digits [d] (integer and fraction
    digits together), scaled by [10^e10]. What is beyond the range of the
    doubles is decided without computing the power. *)
Definition of_literal (d : string) (e10 : Z) : double :=
  let v := digits_value 0 d in
  if (v =? 0)%Z then Finite 0 0
  else if (400 <? e10)%Z then Infinity
  else if (Z.of_nat (String.length d) + e10 <? -400)%Z then Finite 0 0
  else of_scaled v e10.

(** The text JavaScript prints for the number a literal denotes. *)
Definition text (negative : bool) (d : string) (e10 : Z) : string :=
  match of_literal d e10 with
  | Finite 0 _ => "0"
  | x => (if negative then "-" else "") +:+ render x
  end.

End Number.

(** ** JSON text *)

Module JSON.

Definition hex_char (n : N) : ascii :=
  if (n <? 10)%N then ascii_of_N (48 + n) else ascii_of_N (87 + n).

(** How [JSON.stringify] writes one character of a string. *)
Definition escape_char (c : ascii) : string :=
  let n := N_of_ascii c in
  if Ascii.eqb c dquote then String "\" (ch dquote)
  else if Ascii.eqb c "\" then "\\"
  else if (n =? 8)%N then "\b"
  else if (n =? 9)%N then "\t"
  else if (n =? 10)%N then "\n"
  else if (n =? 12)%N then "\f"
  else if (n =? 13)%N then "\r"
  else if (n <? 32)%N then
    "\u00" +:+ ch (hex_char (n / 16)) +:+ ch (hex_char (n mod 16))
  else ch c.

Definition is_high_surrogate (cp : N) : bool := (55296 <=? cp)%N && (cp <? 56320)%N.
Definition is_low_surrogate (cp : N) : bool := (56320 <=? cp)%N && (cp <? 57344)%N.

(** The code of a surrogate, from the three bytes that hold it in a
    text. *)
Definition surrogate (c1 c2 c3 : ascii) : option N :=
  let n2 := N_of_ascii c2 in
  let n3 := N_of_ascii c3 in
  if (N_of_ascii c1 =? 237)%N && (160 <=? n2)%N && (n2 <=? 191)%N
     && (128 <=? n3)%N && (n3 <=? 191)%N
  then Some (55296 + (n2 - 160) * 64 + (n3 - 128))%N
  else None.

Definition starts_low (s : string) : bool :=
  match s with
  | String c1 (String c2 (String c3 _)) =>
      match surrogate c1 c2 c3 with
      | Some cp => is_low_surrogate cp
      | None => false
      end
  | _ => false
  end.

Definition unicode_escape (cp : N) : string :=
  String "\" (String "u"
    (String (hex_char (cp / 4096)) (String (hex_char ((cp / 256) mod 16))
       (String (hex_char ((cp / 16) mod 16)) (ch (hex_char (cp mod 16))))))).

(** The characters of a string as [JSON.stringify] writes them.  A high
    surrogate followed by a low one is a character and is written as it
    is; a surrogate alone is written as its escape. *)
Fixpoint escape (s : string) : string :=
  match s with
  | EmptyString => ""
  | String c1 r1 =>
      match r1 with
      | String c2 (String c3 r3) =>
          match surrogate c1 c2 c3 with
          | Some cp =>
              if is_high_surrogate cp && starts_low r3 then
                match r3 with
                | String c4 (String c5 (String c6 r6)) =>
                    String c1 (String c2 (String c3
                      (String c4 (String c5 (String c6 (escape r6))))))
                | _ => unicode_escape cp +:+ escape r3
                end
              else unicode_escape cp +:+ escape r3
          | None => escape_char c1 +:+ escape r1
          end
      | _ => escape_char c1 +:+ escape r1
      end
  end.

Definition quote (s : string) : string :=
  String dquote (escape s +:+ ch dquote).

(** [JSON.stringify(v)] for a value that is not [undefined] itself: an
    [undefined] array item is written [null], an [undefined] property is
    left out. *)
Fixpoint stringify (v : value) : string :=
  match v with
  | Undefined | Null => "null"
  | Bool true => "true"
  | Bool false => "false"
  | Num r => if String.eqb r "Infinity" || String.eqb r "-Infinity" then "null" else r
  | Str s => quote s
  | Arr l => "[" +:+ join "," (map stringify l) +:+ "]"
  | Obj props =>
      "{" +:+
      join "," (omap (fun '(k, v') => match v' with
                                      | Undefined => None
                                      | _ => Some (quote k +:+ ":" +:+ stringify v')
                                      end) props)
      +:+ "}"
  end.

(** *** Parsing *)

Definition is_ws (c : ascii) : bool :=
  let n := N_of_ascii c in
  (n =? 32)%N || (n =? 9)%N || (n =? 10)%N || (n =? 13)%N.

Fixpoint skip_ws (s : string) : string :=
  match s with
  | String c r => if is_ws c then skip_ws r else s
  | EmptyString => s
  end.

Definition hex_value (c : ascii) : option N :=
  let n := N_of_ascii c in
  if (48 <=? n)%N && (n <=? 57)%N then Some (n - 48)%N
  else if (65 <=? n)%N && (n <=? 70)%N then Some (n - 55)%N
  else if (97 <=? n)%N && (n <=? 102)%N then Some (n - 87)%N
  else None.

(** UTF-8 encoding of a code point. *)
Definition utf8 (cp : N) : string :=
  if (cp <? 128)%N then ch (ascii_of_N cp)
  else if (cp <? 2048)%N then
    String (ascii_of_N (192 + cp / 64)) (ch (ascii_of_N (128 + cp mod 64)))
  else if (cp <? 65536)%N then
    String (ascii_of_N (224 + cp / 4096))
      (String (ascii_of_N (128 + (cp / 64) mod 64))
         (ch (ascii_of_N (128 + cp mod 64))))
  else
    String (ascii_of_N (240 + cp / 262144))
      (String (ascii_of_N (128 + (cp / 4096) mod 64))
         (String (ascii_of_N (128 + (cp / 64) mod 64))
            (ch (ascii_of_N (128 + cp mod 64))))).

Definition pair_code_point (hi lo : N) : N :=
  (65536 + (hi - 55296) * 1024 + (lo - 56320))%N.

Definition simple_escape (c : ascii) : option ascii :=
  if Ascii.eqb c dquote then Some dquote
  else if Ascii.eqb c "\" then Some "\"%char
  else if Ascii.eqb c "/" then Some "/"%char
  else if Ascii.eqb c "b" then Some "008"%char
  else if Ascii.eqb c "f" then Some "012"%char
  else if Ascii.eqb c "n" then Some "010"%char
  else if Ascii.eqb c "r" then Some "013"%char
  else if Ascii.eqb c "t" then Some "009"%char
  else None.

(** The scanner of a string literal reads one character at a time. *)
Inductive str_state :=
| SPlain
| SEscape
| SHex (k : nat) (acc : N).

Definition emit (bytes : string) (o : option (string * string))
  : option (string * string) :=
  match o with
  | Some (str, rest) => Some (bytes +:+ str, rest)
  | None => None
  end.

(** A high surrogate waits in [pending] for its low half; alone, it is kept
    as the three-byte encoding of its own code. *)
Definition flush (pending : option N) : string :=
  match pending with
  | Some hi => utf8 hi
  | None => ""
  end.

(** [parse_string_body SPlain None s] reads the characters of a string
    literal whose opening quote has been consumed, up to and including the
    closing quote, and returns the decoded string and the rest of the
    input. *)
Fixpoint parse_string_body (st : str_state) (pending : option N) (s : string)
  : option (string * string) :=
  match s with
  | EmptyString => None
  | String c r =>
      match st with
      | SPlain =>
          if Ascii.eqb c dquote then Some (flush pending, r)
          else if Ascii.eqb c "\" then parse_string_body SEscape pending r
          else if (N_of_ascii c <? 32)%N then None
          else emit (flush pending +:+ ch c) (parse_string_body SPlain None r)
      | SEscape =>
          if Ascii.eqb c "u" then parse_string_body (SHex 4 0) pending r
          else
            match simple_escape c with
            | Some d => emit (flush pending +:+ ch d) (parse_string_body SPlain None r)
            | None => None
            end
      | SHex k acc =>
          match hex_value c with
          | None => None
          | Some h =>
              let acc' := (acc * 16 + h)%N in
              match k with
              | S (S k') => parse_string_body (SHex (S k') acc') pending r
              | _ =>
                  match pending with
                  | Some hi =>
                      if is_low_surrogate acc' then
                        emit (utf8 (pair_code_point hi acc'))
                             (parse_string_body SPlain None r)
                      else if is_high_surrogate acc' then
                        emit (utf8 hi) (parse_string_body SPlain (Some acc') r)
                      else
                        emit (utf8 hi +:+ utf8 acc') (parse_string_body SPlain None r)
                  | None =>
                      if is_high_surrogate acc' then
                        parse_string_body SPlain (Some acc') r
                      else emit (utf8 acc') (parse_string_body SPlain None r)
                  end
              end
          end
      end
  end.

Definition is_digit (c : ascii) : bool :=
  let n := N_of_ascii c in (48 <=? n)%N && (n <=? 57)%N.

(** Longest prefix of digits, and what follows it. *)
Fixpoint span_digits (s : string) : string * string :=
  match s with
  | String c r =>
      if is_digit c then let '(d, r') := span_digits r in (String c d, r')
      else ("", s)
  | EmptyString => ("", s)
  end.

Definition lex_int (s : string) : option (string * string) :=
  match s with
  | String c r =>
      if Ascii.eqb c "0" then Some ("0", r)
      else if is_digit c then let '(d, r') := span_digits r in Some (String c d, r')
      else None
  | EmptyString => None
  end.

Definition lex_frac (s : string) : option (string * string) :=
  match s with
  | String c r =>
      if Ascii.eqb c "." then
        match span_digits r with
        | (EmptyString, _) => None
        | (d, r') => Some (String c d, r')
        end
      else Some ("", s)
  | EmptyString => Some ("", s)
  end.

Definition lex_exp (s : string) : option (string * string) :=
  match s with
  | String c r =>
      if Ascii.eqb c "e" || Ascii.eqb c "E" then
        let '(sign, r1) :=
          match r with
          | String c' r' =>
              if Ascii.eqb c' "+" || Ascii.eqb c' "-" then (ch c', r') else ("", r)
          | EmptyString => ("", r)
          end in
        match span_digits r1 with
        | (EmptyString, _) => None
        | (d, r2) => Some (String c (sign +:+ d), r2)
        end
      else Some ("", s)
  | EmptyString => Some ("", s)
  end.

(** The value of an exponent part [e+12], [E-3], ...; [0] when there is
    none. *)
Definition exponent_value (e : string) : Z :=
  match e with
  | String _ (String c r) =>
      if Ascii.eqb c "-" then (- Number.digits_value 0 r)%Z
      else if Ascii.eqb c "+" then Number.digits_value 0 r
      else Number.digits_value 0 (String c r)
  | _ => 0%Z
  end.

(** A number literal: its value is the nearest double, kept as the text
    JavaScript prints for it ([1.0] is [1], [1e3] is [1000], [-0] is [0]). *)
Definition parse_number (s : string) : option (value * string) :=
  let '(negative, r0) :=
    match s with
    | String c r => if Ascii.eqb c "-" then (true, r) else (false, s)
    | EmptyString => (false, s)
    end in
  match lex_int r0 with
  | None => None
  | Some (i, r1) =>
      match lex_frac r1 with
      | None => None
      | Some (f, r2) =>
          match lex_exp r2 with
          | None => None
          | Some (e, r3) =>
              let fraction := match f with String _ d => d | EmptyString => "" end in
              let e10 := (exponent_value e - Z.of_nat (String.length fraction))%Z in
              Some (Num (Number.text negative (i +:+ fraction) e10), r3)
          end
      end
  end.

Fixpoint expect (word : string) (s : string) : option string :=
  match word, s with
  | EmptyString, _ => Some s
  | String c w, String c' r => if Ascii.eqb c c' then expect w r else None
  | String _ _, EmptyString => None
  end.

Fixpoint parse_value (fuel : nat) (s : string) {struct fuel}
  : option (value * string) :=
  match fuel with
  | O => None
  | S n =>
      match skip_ws s with
      | EmptyString => None
      | String c r =>
          if Ascii.eqb c "{" then
            match skip_ws r with
            | String c' r' =>
                if Ascii.eqb c' "}" then Some (Obj [], r') else parse_members n [] r
            | EmptyString => None
            end
          else if Ascii.eqb c "[" then
            match skip_ws r with
            | String c' r' =>
                if Ascii.eqb c' "]" then Some (Arr [], r') else parse_elements n [] r
            | EmptyString => None
            end
          else if Ascii.eqb c dquote then
            match parse_string_body SPlain None r with
            | Some (str, r') => Some (Str str, r')
            | None => None
            end
          else if Ascii.eqb c "t" then
            option_map (fun r' => (Bool true, r')) (expect "rue" r)
          else if Ascii.eqb c "f" then
            option_map (fun r' => (Bool false, r')) (expect "alse" r)
          else if Ascii.eqb c "n" then
            option_map (fun r' => (Null, r')) (expect "ull" r)
          else parse_number (String c r)
      end
  end
with parse_elements (fuel : nat) (acc : list value) (s : string) {struct fuel}
  : option (value * string) :=
  match fuel with
  | O => None
  | S n =>
      match parse_value n s with
      | None => None
      | Some (v, r) =>
          match skip_ws r with
          | String c r' =>
              if Ascii.eqb c "," then parse_elements n (acc ++ [v]) r'
              else if Ascii.eqb c "]" then Some (Arr (acc ++ [v]), r')
              else None
          | EmptyString => None
          end
      end
  end
with parse_members (fuel : nat) (acc : list (string * value)) (s : string)
  {struct fuel} : option (value * string) :=
  match fuel with
  | O => None
  | S n =>
      match skip_ws s with
      | String q r =>
          if Ascii.eqb q dquote then
            match parse_string_body SPlain None r with
            | None => None
            | Some (k, r1) =>
                match skip_ws r1 with
                | String c r2 =>
                    if Ascii.eqb c ":" then
                      match parse_value n r2 with
                      | None => None
                      | Some (v, r3) =>
                          match skip_ws r3 with
                          | String c' r4 =>
                              if Ascii.eqb c' "," then parse_members n (obj_set acc k v) r4
                              else if Ascii.eqb c' "}" then Some (Obj (obj_set acc k v), r4)
                              else None
                          | EmptyString => None
                          end
                      end
                    else None
                | EmptyString => None
                end
            end
          else None
      | EmptyString => None
      end
  end.

(** [JSON.parse]: one value, surrounded by white space only.  [None] is a
    [SyntaxError]. *)
Definition parse (s : string) : option value :=
  match parse_value (S (String.length s)) s with
  | Some (v, rest) =>
      match skip_ws rest with
      | EmptyString => Some v
      | String _ _ => None
      end
  | None => None
  end.

End JSON.

(** ** Paths *)

Module Path.

(** An absolute, normalised path: its components from the root. *)
Definition path := list string.

(** The pieces of a path string between its slashes. *)
Fixpoint components (s : string) : list string :=
  match s with
  | EmptyString => [""]
  | String c r =>
      if Ascii.eqb c "/" then "" :: components r
      else match components r with
           | x :: l => String c x :: l
           | [] => [ch c]
           end
  end.

(** One component applied to a normalised path: an empty piece and [.]
    stay in place, [..] goes to the parent, a name goes down. *)
Definition enter (p : path) (seg : string) : path :=
  if String.eqb seg "" || String.eqb seg "." then p
  else if String.eqb seg ".." then removelast p
  else p ++ [seg].

(** [path.join(p, rel)] for a normalised absolute [p]. *)
Definition join (p : path) (rel : string) : path :=
  fold_left enter (components rel) p.

Definition render (p : path) : string :=
  match p with
  | [] => "/"
  | _ => String.concat "" (map (fun seg => "/" +:+ seg) p)
  end.

Definition dirname (p : path) : path := removelast p.

(** A string without a slash: at most one component. *)
Fixpoint no_slash (s : string) : bool :=
  match s with
  | EmptyString => true
  | String c r => negb (Ascii.eqb c "/") && no_slash r
  end.

End Path.
Export Path (path).

(** ** The file system *)

Module FS.

(** Every file can be read and written by the user who runs the script;
    permissions are not modelled. *)
Inductive node :=
| Dir
| File (content : string).

Definition is_dir (fs : gmap path node) (p : path) : bool :=
  match p with
  | [] => true
  | _ => match fs !! p with
         | Some Dir => true
         | _ => false
         end
  end.

Definition fs_error (code : string) (call : string) (p : path) : js_error :=
  plain_error (code +:+ ", " +:+ call +:+ " '" +:+ Path.render p +:+ "'").

(** [fs.readFile] *)
Definition read (fs : gmap path node) (p : path) : result string :=
  match p with
  | [] => Throw (fs_error "EISDIR: illegal operation on a directory" "read" p)
  | _ =>
      match fs !! p with
      | Some (File content) => Ok content
      | Some Dir => Throw (fs_error "EISDIR: illegal operation on a directory" "read" p)
      | None => Throw (fs_error "ENOENT: no such file or directory" "open" p)
      end
  end.

(** Where the system finds a path given as text: it goes from [cur] one
    component at a time, and every component it goes through has to be a
    directory that is there ([nodir/../x] is not found when [nodir] is
    missing, unlike [path.join], which only rewrites the text). *)
Inductive walked :=
| At (p : path)
| Missing
| NotDir.

Fixpoint walk (fs : gmap path node) (cur : path) (segs : list string) : walked :=
  match segs with
  | [] => At cur
  | seg :: rest =>
      if String.eqb seg "" || String.eqb seg "." then walk fs cur rest
      else if String.eqb seg ".." then walk fs (removelast cur) rest
      else
        let next := cur ++ [seg] in
        match rest with
        | [] => At next
        | _ =>
            match fs !! next with
            | Some Dir => walk fs next rest
            | Some (File _) => NotDir
            | None => Missing
            end
        end
  end.

Definition typed_error (code : string) (call : string) (text : string) : js_error :=
  plain_error (code +:+ ", " +:+ call +:+ " '" +:+ text +:+ "'").

(** [fs.createReadStream(text)] read to its end, with working directory
    [wd]; the errors name the path as it was given. *)
Definition read_typed (fs : gmap path node) (wd : path) (text : string)
  : result string :=
  match text with
  | EmptyString => Throw (typed_error "ENOENT: no such file or directory" "open" text)
  | String c _ =>
      match walk fs (if Ascii.eqb c "/" then [] else wd) (Path.components text) with
      | Missing => Throw (typed_error "ENOENT: no such file or directory" "open" text)
      | NotDir => Throw (typed_error "ENOTDIR: not a directory" "open" text)
      | At [] => Throw (plain_error "EISDIR: illegal operation on a directory, read")
      | At p =>
          match fs !! p with
          | Some (File content) => Ok content
          | Some Dir => Throw (plain_error "EISDIR: illegal operation on a directory, read")
          | None => Throw (typed_error "ENOENT: no such file or directory" "open" text)
          end
      end
  end.

(** Opening [p] with flag [w]: the file is created, or emptied if it is
    there; its directory has to exist. *)
Definition open_write (fs : gmap path node) (p : path) : result (gmap path node) :=
  match p with
  | [] => Throw (fs_error "EISDIR: illegal operation on a directory" "open" p)
  | _ =>
      if is_dir fs (Path.dirname p) then
        match fs !! p with
        | None | Some (File _) => Ok (<[p := File ""]> fs)
        | Some Dir => Throw (fs_error "EISDIR: illegal operation on a directory" "open" p)
        end
      else Throw (fs_error "ENOENT: no such file or directory" "open" p)
  end.

(** One more chunk at the end of an open file. *)
Definition append (fs : gmap path node) (p : path) (chunk : string) : gmap path node :=
  match fs !! p with
  | Some (File content) => <[p := File (content +:+ chunk)]> fs
  | _ => fs
  end.

(** [fs.writeFile] *)
Definition write (fs : gmap path node) (p : path) (content : string)
  : result (gmap path node) :=
  match open_write fs p with
  | Ok fs' => Ok (append fs' p content)
  | Throw e => Throw e
  end.

(** [mkdir -p]: every missing directory on the way is created; a file in
    the way is an error. *)
Fixpoint make_dirs (fs : gmap path node) (base : path) (rest : list string)
  : result (gmap path node) :=
  match rest with
  | [] => Ok fs
  | seg :: rest' =>
      let d := base ++ [seg] in
      match fs !! d with
      | Some Dir => make_dirs fs d rest'
      | Some (File _) => Throw (fs_error "EEXIST: file already exists" "mkdir" d)
      | None => make_dirs (<[d := Dir]> fs) d rest'
      end
  end.

Definition ensure_dir (fs : gmap path node) (p : path) : result (gmap path node) :=
  make_dirs fs [] p.

Definition no_space : js_error :=
  plain_error "ENOSPC: no space left on device, write".

(** A write stream fed the chunks of a readable stream.  [budget] is the
    number of chunks the device still takes ([None]: no limit); the chunk
    after that raises the stream's [error] event, the chunks before it are
    in the file.  The end of the chunks is the [finish] event. *)
Fixpoint pump (budget : option nat) (fs : gmap path node) (p : path)
  (chunks : list string) : result unit * gmap path node :=
  match chunks with
  | [] => (Ok tt, fs)
  | c :: r =>
      match budget with
      | Some O => (Throw no_space, fs)
      | Some (S k) => pump (Some k) (append fs p c) p r
      | None => pump None (append fs p c) p r
      end
  end.

End FS.
Export FS (node, Dir, File).

(** ** The network *)

Inductive method := GET | POST.

(** A part of a multipart body as it is sent. *)
Inductive part :=
| PField (v : value)
| PFile (content : string).

Inductive req_body :=
| NoBody
| JsonBody (v : value)
| FormBody (parts : list (string * part)).

(** A request as the script hands it to the HTTP client: the headers are
    those the script sets itself, [req_stream] is [responseType: 'stream']. *)
Record request := mk_request {
  req_method : method;
  req_url : string;
  req_headers : list (string * string);
  req_payload : req_body;
  req_stream : bool
}.

(** What comes back: a status and a body (in chunks), or no response at all
    and the transport's message. *)
Inductive net_result :=
| HttpResponse (status : nat) (body : list string)
| NetFailure (msg : string).

(** The statuses axios resolves the promise on. *)
Definition ok_status (status : nat) : bool :=
  (200 <=? status)%nat && (status <? 300)%nat.

Definition failed (r : net_result) : bool :=
  match r with
  | HttpResponse status _ => negb (ok_status status)
  | NetFailure _ => true
  end.

(** ** The world a command runs in *)

Inductive channel := Stdout | Stderr.

(** What a command does not change: the home and working directories, the
    registry (how it answers each request), and how many chunks the disk
    takes from a write stream before it fails. *)
Record Env := mk_env {
  homedir : path;
  cwd : path;
  server : request -> net_result;
  write_budget : option nat
}.

(** What a command changes: the files, the lines printed, and the requests
    sent with their answers. *)
Record World := mk_world {
  fs : gmap path node;
  console : list (channel * string);
  net : list (request * net_result)
}.

Definition M (A : Type) : Type := Env -> World -> result A * World.

Definition ret {A} (a : A) : M A := fun _ w => (Ok a, w).
Definition throw {A} (e : js_error) : M A := fun _ w => (Throw e, w).
Definition bind {A B} (m : M A) (k : A -> M B) : M B :=
  fun env w =>
    match m env w with
    | (Ok a, w') => k a env w'
    | (Throw e, w') => (Throw e, w')
    end.
Definition try_catch {A} (body : M A) (handler : js_error -> M A) : M A :=
  fun env w =>
    match body env w with
    | (Ok a, w') => (Ok a, w')
    | (Throw e, w') => handler e env w'
    end.
Definition lift {A} (r : result A) : M A := fun _ w => (r, w).
Definition ask : M Env := fun env w => (Ok env, w).

Notation "'do' x <- m ; k" := (bind m (fun x => k))
  (at level 10, x name, m at level 100, k at level 200).
Notation "m ;; k" := (bind m (fun _ => k))
  (at level 100, k at level 200, right associativity).

Definition print (c : channel) (line : string) : M unit :=
  fun _ w => (Ok tt, mk_world (fs w) (console w ++ [(c, line)]) (net w)).
Definition console_log : string -> M unit := print Stdout.
Definition console_error : string -> M unit := print Stderr.

Definition with_fs {A} (f : gmap path node -> result (A * gmap path node)) : M A :=
  fun _ w =>
    match f (fs w) with
    | Ok (a, fs') => (Ok a, mk_world fs' (console w) (net w))
    | Throw e => (Throw e, w)
    end.

Fixpoint for_each {A} (l : list A) (f : A -> M unit) : M unit :=
  match l with
  | [] => ret tt
  | x :: r => f x ;; for_each r f
  end.

(** ** The HTTP client (axios) *)

Module Axios.

(** The http adapter drops a byte-order mark at the start of a text
    body. *)
Definition strip_bom (s : string) : string :=
  match s with
  | String a (String b (String c r)) =>
      if Ascii.eqb a "239" && Ascii.eqb b "187" && Ascii.eqb c "191" then r else s
  | _ => s
  end.

(** The default response transform, on the text without its byte-order
    mark: a body that parses as JSON is the parsed value, any other body is
    kept as a string. *)
Definition decode_body (body : string) : value :=
  match JSON.parse (strip_bom body) with
  | Some v => v
  | None => Str (strip_bom body)
  end.

Definition response_data (req : request) (body : list string) : resp_data :=
  if req_stream req then DStream body
  else DValue (decode_body (String.concat "" body)).

(** The error the promise is rejected with: when there is no response, and
    when the status is outside 2xx (then the error carries the response). *)
Definition rejection (req : request) (r : net_result) : option js_error :=
  match r with
  | NetFailure msg => Some (mk_error msg None)
  | HttpResponse status body =>
      if ok_status status then None
      else Some (mk_error ("Request failed with status code " +:+ nat_repr status)
                          (Some (response_data req body)))
  end.

Definition body_of (r : net_result) : list string :=
  match r with
  | HttpResponse _ body => body
  | NetFailure _ => []
  end.

(** One exchange: the request goes to the registry, and the promise is
    resolved with the body or rejected. *)
Definition send (req : request) : M (list string) :=
  fun env w =>
    let r := server env req in
    let w' := mk_world (fs w) (console w) (net w ++ [(req, r)]) in
    match rejection req r with
    | Some e => (Throw e, w')
    | None => (Ok (body_of r), w')
    end.

Definition get_request (url : string) : request :=
  mk_request GET url [] NoBody false.

Definition get_stream_request (url : string) : request :=
  mk_request GET url [] NoBody true.

Definition post_request (url : string) (body : value)
  (headers : list (string * string)) : request :=
  mk_request POST url headers (JsonBody body) false.

(** [axios.get(url)] *)
Definition get (url : string) : M value :=
  do body <- send (get_request url);
  ret (decode_body (String.concat "" body)).

(** [axios.get(url, { responseType: 'stream' })] *)
Definition get_stream (url : string) : M (list string) :=
  send (get_stream_request url).

(** [axios.post(url, body, { headers })] with a plain object as body. *)
Definition post (url : string) (body : value) (headers : list (string * string))
  : M value :=
  do answer <- send (post_request url body headers);
  ret (decode_body (String.concat "" answer)).

End Axios.

(** ** Multipart forms (form-data) *)

Module FormData.

(** What [form.append] was given: a value, or a read stream on a file. *)
Inductive entry :=
| Value (v : value)
| ReadStream (file : string).

Definition form := list (string * entry).

Definition append (f : form) (field : string) (e : entry) : form :=
  f ++ [(field, e)].

(** The parts as they go out: a read stream is read, at the path it was
    given and from the working directory, when the body is sent. *)
Fixpoint parts (fs : gmap path node) (wd : path) (f : form)
  : result (list (string * part)) :=
  match f with
  | [] => Ok []
  | (field, Value v) :: r =>
      match parts fs wd r with
      | Ok ps => Ok ((field, PField v) :: ps)
      | Throw e => Throw e
      end
  | (field, ReadStream file) :: r =>
      match FS.read_typed fs wd file with
      | Ok content =>
          match parts fs wd r with
          | Ok ps => Ok ((field, PFile content) :: ps)
          | Throw e => Throw e
          end
      | Throw e => Throw e
      end
  end.

(** [axios.post(url, form, { headers })]: a read stream that cannot be read
    fails the call and the request does not complete. *)
Definition post (url : string) (f : form) (headers : list (string * string))
  : M value :=
  do env <- ask;
  do ps <- (fun _ w => (parts (fs w) (cwd env) f, w));
  do answer <- Axios.send (mk_request POST url headers (FormBody ps) false);
  ret (Axios.decode_body (String.concat "" answer)).

End FormData.

(** ** JSON files (fs-extra) *)

Module Fse.

(** A byte-order mark at the start of the text is dropped. *)
Definition strip_bom (s : string) : string :=
  match s with
  | String a (String b (String c r)) =>
      if Ascii.eqb a "239" && Ascii.eqb b "187" && Ascii.eqb c "191" then r else s
  | _ => s
  end.

(** [fse.readJson(p)] *)
Definition readJson (p : path) : M value :=
  do text <- (fun _ w => (FS.read (fs w) p, w));
  match JSON.parse (strip_bom text) with
  | Some v => ret v
  | None => throw (plain_error (Path.render p +:+ ": Unexpected token in JSON"))
  end.

(** [fse.writeJson(p, obj)]: the text of the object and a final newline. *)
Definition writeJson (p : path) (obj : value) : M unit :=
  with_fs (fun fs0 =>
    match FS.write fs0 p (JSON.stringify obj +:+ ch newline) with
    | Ok fs' => Ok (tt, fs')
    | Throw e => Throw e
    end).

(** [fse.ensureDir(p)] *)
Definition ensureDir (p : path) : M unit :=
  with_fs (fun fs0 =>
    match FS.ensure_dir fs0 p with
    | Ok fs' => Ok (tt, fs')
    | Throw e => Throw e
    end).

(** [fse.createWriteStream(p)], the response stream piped into it, and the
    promise on its [finish] and [error] events.  [chunks] is the body of a
    response that arrived whole: a response cut short while its body is
    read, on which the promise of the script never settles, is outside the
    model. *)
Definition pipe_to_file (chunks : list string) (p : path) : M unit :=
  fun env w =>
    match FS.open_write (fs w) p with
    | Throw e => (Throw e, w)
    | Ok fs1 =>
        let '(r, fs2) := FS.pump (write_budget env) fs1 p chunks in
        (r, mk_world fs2 (console w) (net w))
    end.

End Fse.

(** * The script *)

(** The four revisions of the script in the repository.  They differ in how
    the HTTP client is set up (which the model does not see) and in one
    line of [publish]. *)
Inductive revision := flam_js | part_000 | part_001 | part_002.

Definition API_URL : string := "https://sarver-fullstack-4.onrender.com".

Definition CONFIG_PATH (env : Env) : path :=
  Path.join (homedir env) ".flamconfig.json".

Definition saveApiKey (key : value) : M unit :=
  do env <- ask;
  Fse.writeJson (CONFIG_PATH env) (Obj [("apiKey", key)]).

Definition loadApiKey : M value :=
  try_catch
    (do env <- ask;
     do config <- Fse.readJson (CONFIG_PATH env);
     lift (get_prop config "apiKey"))
    (fun _ => ret Null).

(** [error.response?.data?.error || fallback], as a template literal
    prints it. *)
Definition error_text (error : js_error) (fallback : string) : string :=
  to_string (or_else (server_error_field error) (Str fallback)).

Definition login_action (email password : string) : M unit :=
  console_log "Tentative de connexion..." ;;
  try_catch
    (do loginRes <- Axios.post (API_URL +:+ "/auth/login")
                      (Obj [("email", Str email); ("password", Str password)]) [];
     do token <- lift (get_prop loginRes "token");
     do apiTokenRes <- Axios.post (API_URL +:+ "/user/api-token") (Obj [])
                         [("Authorization", "Bearer " +:+ to_string token)];
     do apiKey <- lift (get_prop apiTokenRes "api_token");
     saveApiKey apiKey ;;
     console_log "✅ Connexion réussie ! Votre clé API a été sauvegardée.")
    (fun error =>
       console_error ("Erreur de connexion : " +:+ error_text error (message error))).

Definition not_connected : string :=
  "Vous n'êtes pas connecté. Veuillez utiliser `flam login <email> <password>`.".

Definition manifest_unreadable : string :=
  "Erreur : Impossible de trouver ou lire le fichier `package.json` dans le dossier actuel.".

(** The property of the manifest that [version] is read from:
    [version = pkgJson.version], but [version = pkgJson.name] in
    [part_002]. *)
Definition version_source (rev : revision) : string :=
  match rev with
  | part_002 => "name"
  | _ => "version"
  end.

(** The form that [publish] builds from the three variables and the path. *)
Definition publish_form (packageName version description : value)
  (filePath : string) : FormData.form :=
  let form := [] in
  let form := FormData.append form "packageName" (FormData.Value packageName) in
  let form := FormData.append form "version" (FormData.Value version) in
  let form := FormData.append form "description" (FormData.Value description) in
  FormData.append form "package" (FormData.ReadStream filePath).

Definition publish_action (rev : revision) (filePath : string) : M unit :=
  do apiKey <- loadApiKey;
  if negb (truthy apiKey) then console_error not_connected
  else
    do manifest <-
      try_catch
        (do env <- ask;
         do pkgJson <- Fse.readJson (Path.join (cwd env) "package.json");
         do packageName <- lift (get_prop pkgJson "name");
         do version <- lift (get_prop pkgJson (version_source rev));
         do description <- lift (get_prop pkgJson "description");
         ret (Some (packageName, version, description)))
        (fun _ => console_error manifest_unreadable ;; ret None);
    match manifest with
    | None => ret tt
    | Some (packageName, version, description) =>
        console_log ("Publication de " +:+ to_string packageName +:+ "@"
                     +:+ to_string version +:+ "...") ;;
        try_catch
          (let form := publish_form packageName version description filePath in
           do response <- FormData.post (API_URL +:+ "/packages/publish") form
                            [("Authorization", "Bearer " +:+ to_string apiKey)];
           do msg <- lift (get_prop response "message");
           console_log ("✅ " +:+ to_string msg))
          (fun error =>
             console_error ("Erreur de publication : "
                            +:+ error_text error (message error)))
    end.

(** The line printed for one search result. *)
Definition render_result (pkg : value) : result string :=
  match get_prop pkg "package_name" with
  | Throw e => Throw e
  | Ok package_name =>
      match get_prop pkg "version", get_prop pkg "description", get_prop pkg "author" with
      | Ok version, Ok description, Ok author =>
          Ok (to_string package_name +:+ "@" +:+ to_string version +:+ " - "
              +:+ to_string description +:+ " (" +:+ to_string author +:+ ")")
      | Throw e, _, _ | _, Throw e, _ | _, _, Throw e => Throw e
      end
  end.

(** The callback of [forEach]. *)
Definition print_result (pkg : value) : M unit :=
  do line <- lift (render_result pkg);
  console_log line.

Definition no_results : string := "Aucun paquet trouvé.".

Definition searching_line (query : string) : string :=
  "Recherche de paquets pour " +:+ ch dquote +:+ query +:+ ch dquote +:+ "...".

Definition search_url (query : string) : string :=
  API_URL +:+ "/packages/search?q=" +:+ query.

Definition search_action (query : string) : M unit :=
  console_log (searching_line query) ;;
  try_catch
    (do data <- Axios.get (search_url query);
     do len <- lift (get_prop data "length");
     if strict_eq_num len 0 then console_log no_results
     else
       match data with
       | Arr items => for_each items print_result
       | _ => throw (plain_error "res.data.forEach is not a function")
       end)
    (fun error =>
       console_error ("Erreur de recherche : " +:+ error_text error (message error))).

Definition archive_name (packageName : string) (version : value) : string :=
  packageName +:+ "-" +:+ to_string version +:+ ".zip".

Definition install_dir (env : Env) : path := Path.join (cwd env) "flam_modules".

Definition not_found (packageName : string) : string :=
  "Le paquet " +:+ ch dquote +:+ packageName +:+ ch dquote +:+ " n'a pas été trouvé.".

Definition installed_line (packageName : string) : string :=
  "✅ Paquet " +:+ packageName +:+ " installé avec succès dans `flam_modules` !".

Definition details_url (packageName : string) : string :=
  API_URL +:+ "/packages/details/" +:+ packageName.

Definition download_url (packageName : string) (version : value) : string :=
  API_URL +:+ "/packages/download/" +:+ packageName +:+ "/" +:+ to_string version.

Definition install_action (packageName : string) : M unit :=
  console_log ("Recherche de " +:+ packageName +:+ "...") ;;
  try_catch
    (do details <- Axios.get (details_url packageName);
     do version <- lift (get_prop details "version");
     console_log ("Téléchargement de " +:+ packageName +:+ "@"
                  +:+ to_string version +:+ "...") ;;
     let downloadUrl := download_url packageName version in
     do body <- Axios.get_stream downloadUrl;
     do env <- ask;
     let installDir := install_dir env in
     Fse.ensureDir installDir ;;
     let filePath := Path.join installDir (archive_name packageName version) in
     Fse.pipe_to_file body filePath ;;
     console_log (installed_line packageName))
    (fun error =>
       console_error ("Erreur d'installation : "
                      +:+ error_text error (not_found packageName))).

(** ** Running a command

    Every invocation is a process of its own: it starts with nothing
    printed and nothing sent, on the files it finds. *)

Definition boot (files : gmap path node) : World := mk_world files [] [].

Definition run (command : M unit) (env : Env) (files : gmap path node) : World :=
  snd (command env (boot files)).

Definition stderr_lines (w : World) : list string :=
  omap (fun l => match fst l with Stderr => Some (snd l) | Stdout => None end) (console w).

Definition stdout_lines (w : World) : list string :=
  omap (fun l => match fst l with Stdout => Some (snd l) | Stderr => None end) (console w).

(** ** The requests of the four commands *)

Definition login_request (email password : string) : request :=
  Axios.post_request (API_URL +:+ "/auth/login")
    (Obj [("email", Str email); ("password", Str password)]) [].

Definition api_token_request (token : value) : request :=
  Axios.post_request (API_URL +:+ "/user/api-token") (Obj [])
    [("Authorization", "Bearer " +:+ to_string token)].

Definition search_request (query : string) : request :=
  Axios.get_request (search_url query).

Definition details_request (packageName : string) : request :=
  Axios.get_request (details_url packageName).

Definition download_request (packageName : string) (version : value) : request :=
  Axios.get_stream_request (download_url packageName version).

(** [res.data] of the answer to a request that is not a stream. *)
Definition answer_data (r : net_result) : value :=
  Axios.decode_body (String.concat "" (Axios.body_of r)).

(** ** Notions the properties are stated with *)

(** What [loadApiKey] gives a command that has just started. *)
Definition stored_key (env : Env) (files : gmap path node) : result value :=
  fst (loadApiKey env (boot files)).

(** The text of a JSON file, when it is there and is a file. *)
Definition file_text (files : gmap path node) (p : path) : option string :=
  match files !! p with
  | Some (File content) => Some content
  | _ => None
  end.

Definition is_file (files : gmap path node) (p : path) : Prop :=
  ∃ content, files !! p = Some (File content).

(** The manifest as [publish] reads it. *)
Definition manifest (env : Env) (files : gmap path node) : option value :=
  match file_text files (Path.join (cwd env) "package.json") with
  | Some text => JSON.parse (Fse.strip_bom text)
  | None => None
  end.

(** The value of a field among the parts of a multipart body. *)
Fixpoint part_of (parts : list (string * part)) (field : string) : option part :=
  match parts with
  | [] => None
  | (k, v) :: r => if String.eqb k field then Some v else part_of r field
  end.

Definition sent_part (x : request * net_result) (field : string) : option part :=
  match req_payload (fst x) with
  | FormBody parts => part_of parts field
  | _ => None
  end.

(** The version [install] resolves: the [version] of the details answer. *)
Definition resolved_version (env : Env) (packageName : string) : option value :=
  let r := server env (details_request packageName) in
  match Axios.rejection (details_request packageName) r with
  | Some _ => None
  | None =>
      match get_prop (answer_data r) "version" with
      | Ok v => Some v
      | Throw _ => None
      end
  end.

(** The chunks of the archive, when the download is answered with them. *)
Definition downloaded (env : Env) (packageName : string) (version : value)
  : option (list string) :=
  let r := server env (download_request packageName version) in
  match Axios.rejection (download_request packageName version) r with
  | Some _ => None
  | None => Some (Axios.body_of r)
  end.

(** An install that ended on its success message. *)
Definition installed (packageName : string) (w : World) : Prop :=
  last (console w) = Some (Stdout, installed_line packageName).

(** The four commands. *)
Inductive flow :=
| Login (email password : string)
| Publish (rev : revision) (filePath : string)
| Search (query : string)
| Install (packageName : string).


Definition error_prefix (f : flow) : string :=
  match f with
  | Login _ _ => "Erreur de connexion : "
  | Publish _ _ => "Erreur de publication : "
  | Search _ => "Erreur de recherche : "
  | Install _ => "Erreur d'installation : "
  end.


(** ** The specification's wording, for the properties the script does not
    have as they are worded *)

Module Spec.

(** Error text: the server's error field when there is one, the transport's
    message otherwise. *)
Definition error_text (e : js_error) : string :=
  if truthy (server_error_field e) then to_string (server_error_field e)
  else message e.


Definition unreserved (c : ascii) : bool :=
  let n := N_of_ascii c in
  ((48 <=? n) && (n <=? 57))%N || ((65 <=? n) && (n <=? 90))%N
  || ((97 <=? n) && (n <=? 122))%N
  || bool_decide (c ∈ ["-"; "_"; "."; "!"; "~"; "*"; "'"; "("; ")"]%char).

Definition upper_hex (n : N) : ascii :=
  if (n <? 10)%N then ascii_of_N (48 + n) else ascii_of_N (55 + n).

(** URL encoding of a parameter value ([encodeURIComponent]). *)
Fixpoint url_encode (s : string) : string :=
  match s with
  | EmptyString => ""
  | String c r =>
      (if unreserved c then ch c
       else String "%" (String (upper_hex (N_of_ascii c / 16))
                          (ch (upper_hex (N_of_ascii c mod 16)))))
      +:+ url_encode r
  end.

Fixpoint all_unreserved (s : string) : bool :=
  match s with
  | EmptyString => true
  | String c r => unreserved c && all_unreserved r
  end.

(** The search request carries the URL-encoded query as [q]. *)
Definition search_sends_encoded_query (query : string) (env : Env)
  (files : gmap path node) : Prop :=
  ∃ r, net (run (search_action query) env files)
       = [(Axios.get_request (API_URL +:+ "/packages/search?q=" +:+ url_encode query), r)].

End Spec.

(** ** A registry and a working directory to run the commands on *)

Module Example.

Definition json (v : value) : net_result := HttpResponse 200 [JSON.stringify v].

Definition answers : list (string * net_result) :=
  [ (API_URL +:+ "/auth/login", json (Obj [("token", Str "jwt")]));
    (API_URL +:+ "/user/api-token", json (Obj [("api_token", Str "dragon-key")]));
    (API_URL +:+ "/packages/publish", HttpResponse 201 [JSON.stringify (Obj [("message", Str "ok")])]);
    (search_url "fire", json (Arr [Obj [("package_name", Str "fire"); ("version", Str "1.0.0");
                                        ("description", Str "breath"); ("author", Str "smaug")];
                                   Obj [("package_name", Str "fireproof"); ("version", Str "0.2.0");
                                        ("description", Str "armor"); ("author", Str "bard")]]));
    (search_url "ice", json (Arr []));
    (details_url "foo", json (Obj [("version", Str "1.2.0")]));
    (download_url "foo" (Str "1.2.0"), HttpResponse 200 ["PK"; "zip"; "data"]);
    (details_url "../x", json (Obj [("version", Str "1.2.0")]));
    (download_url "../x" (Str "1.2.0"), HttpResponse 200 ["PK"; "zip"; "data"]) ].

Fixpoint answer (l : list (string * net_result)) (url : string) : net_result :=
  match l with
  | [] => HttpResponse 404 [JSON.stringify (Obj [("error", Str "Not found")])]
  | (u, r) :: l' => if String.eqb u url then r else answer l' url
  end.

Definition registry (req : request) : net_result := answer answers (req_url req).

Definition home : path := ["home"; "dragon"].
Definition work : path := ["work"].

Definition env : Env := mk_env home work registry None.

(** The disk fails on the second chunk of a write stream. *)
Definition failing_disk_env : Env := mk_env home work registry (Some 1).

(** No registry within reach. *)
Definition offline_env : Env :=
  mk_env home work (fun _ => NetFailure "connect ECONNREFUSED 127.0.0.1:443") None.

Definition files : gmap path node :=
  <[ ["home"] := Dir ]> (<[ home := Dir ]> (<[ work := Dir ]> ∅)).

(** A project to publish, by a user who is logged in. *)
Definition project : gmap path node :=
  <[ work ++ ["package.json"] :=
       File (JSON.stringify (Obj [("name", Str "foo"); ("version", Str "1.0.0");
                                  ("description", Str "a package")])) ]>
    (<[ work ++ ["foo.zip"] := File "PK" ]>
       (<[ home ++ [".flamconfig.json"] :=
             File (JSON.stringify (Obj [("apiKey", Str "dragon-key")])) ]> files)).

End Example.

(** ** More notions and scenarios *)

(** A property of a search result, as the script reads it. *)
Definition field (pkg : value) (k : string) : value :=
  match get_prop pkg k with
  | Ok v => v
  | Throw _ => Undefined
  end.

(** A search result the script can print: not [null] or [undefined], and
    its four fields print. *)
Definition listable (pkg : value) : bool :=
  negb (nullish pkg)
  && forallb (fun k => printable (field pkg k))
       ["package_name"; "version"; "description"; "author"].

(** The text [saveApiKey] writes for a key. *)
Definition config_text (key : value) : string :=
  JSON.stringify (Obj [("apiKey", key)]) +:+ ch newline.

(** The answers of the two requests of [login], when both succeed: the
    session token and what the second answer has as [api_token]. *)
Definition login_answers (env : Env) (email password : string)
  (token apiKey : value) : Prop :=
  failed (server env (login_request email password)) = false
  ∧ get_prop (answer_data (server env (login_request email password))) "token" = Ok token
  ∧ failed (server env (api_token_request token)) = false
  ∧ get_prop (answer_data (server env (api_token_request token))) "api_token" = Ok apiKey.

(** The two lines of a [login] that went well. *)
Definition connecting : string := "Tentative de connexion...".
Definition connected : string :=
  "✅ Connexion réussie ! Votre clé API a été sauvegardée.".

(** The request [publish] sends. *)
Definition publish_request (apiKey name version description : value)
  (content : string) : request :=
  mk_request POST (API_URL +:+ "/packages/publish")
    [("Authorization", "Bearer " +:+ to_string apiKey)]
    (FormBody [ ("packageName", PField name); ("version", PField version);
                ("description", PField description); ("package", PFile content) ])
    false.

Module Scenario.



(** A registry that answers a search with an object, with a list holding a
    [null], and with nothing at all. *)
Definition odd_registry (req : request) : net_result :=
  if String.eqb (req_url req) (search_url "wrapped")
  then Example.json (Obj [("results", Arr [])])
  else if String.eqb (req_url req) (search_url "holes")
  then Example.json (Arr [Obj [("package_name", Str "fire"); ("version", Str "1.0.0");
                               ("description", Str "breath"); ("author", Str "smaug")];
                          Null;
                          Obj [("package_name", Str "ice")]])
  else if String.eqb (req_url req) (search_url "void")
  then HttpResponse 200 []
  else Example.registry req.

Definition odd_env : Env := mk_env Example.home Example.work odd_registry None.

(** A working directory where [flam_modules] is a file. *)
Definition blocked : gmap path node :=
  <[ Example.work ++ ["flam_modules"] := File "not a directory" ]> Example.files.



(** A project whose manifest is not JSON. *)
Definition broken_project : gmap path node :=
  <[ Example.work ++ ["package.json"] := File "name: foo" ]> Example.project.

End Scenario.

(** * Properties *)

Arguments ok_status : simpl never.
Arguments nat_repr : simpl never.
Arguments to_string : simpl never.
Arguments get_prop : simpl never.
Arguments JSON.parse : simpl never.
Arguments JSON.stringify : simpl never.
Arguments Fse.strip_bom : simpl never.
Arguments Axios.rejection : simpl never.
Arguments Axios.decode_body : simpl never.
Arguments Path.join : simpl never.
Arguments FS.read : simpl never.
Arguments FS.read_typed : simpl never.
Arguments FS.write : simpl never.
Arguments FS.open_write : simpl never.
Arguments FS.ensure_dir : simpl never.
Arguments CONFIG_PATH : simpl never.
Arguments install_dir : simpl never.
Arguments archive_name : simpl never.
Arguments details_url : simpl never.
Arguments download_url : simpl never.
Arguments search_url : simpl never.
Arguments not_found : simpl never.
Arguments installed_line : simpl never.
Arguments searching_line : simpl never.
Arguments error_text : simpl never.
Arguments FormData.parts : simpl never.
Arguments publish_form : simpl never.

(** ** Strings *)

Section strings.

#[local] Arguments String.append !_ _ : simpl nomatch.

Lemma append_assoc (a b c : string) : (a +:+ b) +:+ c = a +:+ (b +:+ c).
Proof. induction a as [|x a IH]; simpl; [done | by rewrite IH]. Qed.

Lemma append_nil_r (a : string) : a +:+ "" = a.
Proof. induction a as [|x a IH]; simpl; [done | by rewrite IH]. Qed.

Lemma length_append (a b : string) :
  String.length (a +:+ b) = String.length a + String.length b.
Proof. induction a as [|x a IH]; simpl; [done | by rewrite IH]. Qed.

Lemma concat_cons (c : string) (l : list string) :
  String.concat "" (c :: l) = c +:+ String.concat "" l.
Proof. destruct l; simpl; [by rewrite append_nil_r | done]. Qed.

(** ** What [JSON.parse] reads back from [JSON.stringify] *)

(** One character of a string, as written, is read back as itself, after
    the surrogate that was waiting. *)
Lemma parse_escape_char (c : ascii) (pending : option N) (r : string) :
  JSON.parse_string_body JSON.SPlain pending (JSON.escape_char c +:+ r)
  = JSON.emit (JSON.flush pending +:+ ch c) (JSON.parse_string_body JSON.SPlain None r).
Proof. destruct pending; destruct c as [[] [] [] [] [] [] [] []]; reflexivity. Qed.

(** The escape of a surrogate is read back as that surrogate: its three
    bytes, or the half of a pair. *)
Lemma parse_unicode_escape (c1 c2 c3 : ascii) (cp : N) (pending : option N)
  (r : string) :
  JSON.surrogate c1 c2 c3 = Some cp →
  JSON.utf8 cp = String c1 (String c2 (ch c3))
  ∧ JSON.is_high_surrogate cp = negb (JSON.is_low_surrogate cp)
  ∧ JSON.escape_char c1 = ch c1 ∧ JSON.escape_char c2 = ch c2
  ∧ JSON.escape_char c3 = ch c3
  ∧ JSON.parse_string_body JSON.SPlain pending (JSON.unicode_escape cp +:+ r)
    = match pending with
      | Some hi =>
          if JSON.is_low_surrogate cp then
            JSON.emit (JSON.utf8 (JSON.pair_code_point hi cp))
              (JSON.parse_string_body JSON.SPlain None r)
          else JSON.emit (JSON.utf8 hi) (JSON.parse_string_body JSON.SPlain (Some cp) r)
      | None =>
          if JSON.is_high_surrogate cp
          then JSON.parse_string_body JSON.SPlain (Some cp) r
          else JSON.emit (JSON.utf8 cp) (JSON.parse_string_body JSON.SPlain None r)
      end.
Proof.
  unfold JSON.surrogate.
  destruct c1 as [[] [] [] [] [] [] [] []]; intros H; cbn in H; try discriminate H.
  destruct c2 as [[] [] [] [] [] [] [] []]; cbn in H; try discriminate H;
    (destruct c3 as [[] [] [] [] [] [] [] []]; cbn in H; try discriminate H;
     injection H as <-; destruct pending; repeat split; reflexivity).
Qed.

Lemma escape_eq (c1 c2 c3 : ascii) (r3 : string) :
  JSON.escape (String c1 (String c2 (String c3 r3)))
  = match JSON.surrogate c1 c2 c3 with
    | Some cp =>
        if JSON.is_high_surrogate cp && JSON.starts_low r3 then
          match r3 with
          | String c4 (String c5 (String c6 r6)) =>
              String c1 (String c2 (String c3
                (String c4 (String c5 (String c6 (JSON.escape r6))))))
          | _ => JSON.unicode_escape cp +:+ JSON.escape r3
          end
        else JSON.unicode_escape cp +:+ JSON.escape r3
    | None => JSON.escape_char c1 +:+ JSON.escape (String c2 (String c3 r3))
    end.
Proof. reflexivity. Qed.

Lemma escape_short (c1 : ascii) (r1 : string) :
  String.length r1 < 2 →
  JSON.escape (String c1 r1) = JSON.escape_char c1 +:+ JSON.escape r1.
Proof. destruct r1 as [|c2 [|c3 r3]]; cbn [String.length]; intros H; [done..|lia]. Qed.

Lemma raw_byte (c : ascii) (pending : option N) (r : string) :
  JSON.escape_char c = ch c →
  JSON.parse_string_body JSON.SPlain pending (String c r)
  = JSON.emit (JSON.flush pending +:+ ch c) (JSON.parse_string_body JSON.SPlain None r).
Proof. intros H. rewrite <- parse_escape_char, H. reflexivity. Qed.

(** The characters of a string, as written, are read back as the string,
    after the surrogate that was waiting, unless the string starts with
    its other half. *)
Lemma parse_escape_pending (n : nat) :
  ∀ (s : string) (pending : option N) (rest : string),
    String.length s ≤ n →
    (pending ≠ None → JSON.starts_low s = false) →
    JSON.parse_string_body JSON.SPlain pending (JSON.escape s +:+ String dquote rest)
    = Some (JSON.flush pending +:+ s, rest).
Proof.
  induction n as [|n IH]; intros s pending rest Hlen Hlow.
  { destruct s; [|cbn in Hlen; lia]. cbn. by rewrite append_nil_r. }
  destruct s as [|c1 r1]; [cbn; by rewrite append_nil_r|].
  cbn [String.length] in Hlen.
  assert (JSON.parse_string_body JSON.SPlain pending
            ((JSON.escape_char c1 +:+ JSON.escape r1) +:+ String dquote rest)
          = Some (JSON.flush pending +:+ String c1 r1, rest)) as Hplain.
  { rewrite append_assoc, parse_escape_char, (IH r1 None) by (done || lia).
    cbn. by rewrite append_assoc. }
  destruct r1 as [|c2 [|c3 r3]]; [by rewrite escape_short by (cbn; lia)..|].
  rewrite escape_eq.
  destruct (JSON.surrogate c1 c2 c3) as [cp|] eqn:Hcp; [|done].
  clear Hplain. cbn [String.length] in Hlen.
  destruct (parse_unicode_escape c1 c2 c3 cp pending
              (JSON.escape r3 +:+ String dquote rest) Hcp)
    as (Hutf8 & Hhalf & He1 & He2 & He3 & Hparse).
  assert (JSON.parse_string_body JSON.SPlain pending
            ((JSON.unicode_escape cp +:+ JSON.escape r3) +:+ String dquote rest)
          = Some (JSON.flush pending +:+ String c1 (String c2 (String c3 r3)), rest)
          ∨ JSON.is_high_surrogate cp && JSON.starts_low r3 = true) as Hlone.
  { destruct (JSON.is_high_surrogate cp && JSON.starts_low r3) eqn:Hpair; [by right|].
    left. rewrite append_assoc, Hparse.
    destruct pending as [hi|].
    - assert (JSON.is_low_surrogate cp = false) as Hnot.
      { specialize (Hlow ltac:(done)). cbn in Hlow. by rewrite Hcp in Hlow. }
      rewrite Hnot in Hhalf |- *. rewrite Hhalf in Hpair. cbn in Hpair.
      rewrite (IH r3 (Some cp)) by (done || lia).
      cbn. rewrite Hutf8. cbn. by rewrite ?append_assoc.
    - destruct (JSON.is_high_surrogate cp) eqn:Hhigh.
      + cbn in Hpair. rewrite (IH r3 (Some cp)) by (done || lia).
        cbn. by rewrite Hutf8.
      + rewrite (IH r3 None) by (done || lia). cbn. by rewrite Hutf8. }
  destruct (JSON.is_high_surrogate cp && JSON.starts_low r3) eqn:Hpair;
    [|by destruct Hlone].
  apply andb_prop in Hpair as [_ Hstart].
  destruct r3 as [|c4 [|c5 [|c6 r6]]]; try discriminate Hstart.
  cbn in Hstart. destruct (JSON.surrogate c4 c5 c6) as [lo|] eqn:Hlo; [|done].
  destruct (parse_unicode_escape c4 c5 c6 lo None "" Hlo)
    as (_ & _ & He4 & He5 & He6 & _).
  cbn [String.length] in Hlen.
  change (String c1 (String c2 (String c3 (String c4 (String c5 (String c6
            (JSON.escape r6)))))) +:+ String dquote rest)
    with (String c1 (String c2 (String c3 (String c4 (String c5 (String c6
            (JSON.escape r6 +:+ String dquote rest))))))).
  rewrite (raw_byte c1), (raw_byte c2), (raw_byte c3), (raw_byte c4),
    (raw_byte c5), (raw_byte c6) by done.
  rewrite (IH r6 None) by (done || lia). cbn. by rewrite ?append_assoc.
Qed.

Lemma parse_escape (k rest : string) :
  JSON.parse_string_body JSON.SPlain None (JSON.escape k +:+ String dquote rest)
  = Some (k, rest).
Proof. by apply (parse_escape_pending (String.length k)). Qed.

Lemma parse_object_apiKey (key body : string) :
  JSON.parse_string_body JSON.SPlain None body = Some (key, String "}" (ch newline)) →
  JSON.parse (String "{" (String dquote ("apiKey" +:+ String dquote
                (String ":" (String dquote body)))))
  = Some (Obj [("apiKey", Str key)]).
Proof. intros H. unfold JSON.parse. simpl. rewrite H. reflexivity. Qed.

Lemma saved_text (key : string) :
  JSON.stringify (Obj [("apiKey", Str key)]) +:+ ch newline
  = String "{" (String dquote ("apiKey" +:+ String dquote (String ":" (String dquote
      (JSON.escape key +:+ String dquote (String "}" (ch newline))))))).
Proof.
  change (JSON.stringify (Obj [("apiKey", Str key)]) +:+ ch newline)
    with (String "{" (String dquote ("apiKey" +:+ String dquote (String ":" (String dquote
      (((JSON.escape key +:+ ch dquote) +:+ "}") +:+ ch newline)))))).
  by rewrite !append_assoc.
Qed.

(** The text [saveApiKey] writes for a string key parses to the object it
    was made from. *)
Lemma parse_saved (key : string) :
  JSON.parse (Fse.strip_bom (JSON.stringify (Obj [("apiKey", Str key)]) +:+ ch newline))
  = Some (Obj [("apiKey", Str key)]).
Proof. rewrite saved_text. apply parse_object_apiKey, parse_escape. Qed.

End strings.

(** ** Files *)

Lemma open_write_lookup (files files' : gmap path node) (p : path) :
  FS.open_write files p = Ok files' →
  p ≠ [] ∧ files' = <[p := File ""]> files.
Proof.
  unfold FS.open_write. intros H.
  destruct p as [|seg p]; [done|]. split; [done|].
  repeat case_match; by simplify_eq.
Qed.

Lemma append_lookup (files : gmap path node) (p : path) (content chunk : string) :
  files !! p = Some (File content) →
  FS.append files p chunk = <[p := File (content +:+ chunk)]> files.
Proof. intros H. unfold FS.append. by rewrite H. Qed.

Lemma write_result (files files' : gmap path node) (p : path) (content : string) :
  FS.write files p content = Ok files' →
  p ≠ [] ∧ files' = <[p := File content]> files.
Proof.
  unfold FS.write. intros H.
  destruct (FS.open_write files p) as [opened|] eqn:Hopen; [|done].
  apply open_write_lookup in Hopen as [Hp ->]. split; [done|].
  simplify_eq. erewrite append_lookup by apply lookup_insert_eq.
  by rewrite insert_insert_eq.
Qed.

Lemma read_file (files : gmap path node) (p : path) (content : string) :
  p ≠ [] → files !! p = Some (File content) → FS.read files p = Ok content.
Proof. intros Hp H. unfold FS.read. destruct p; [done|]. by rewrite H. Qed.

Lemma read_text (files : gmap path node) (p : path) (content : string) :
  FS.read files p = Ok content → file_text files p = Some content.
Proof.
  unfold FS.read, file_text. destruct p; [done|].
  destruct (files !! _) as [[]|]; naive_solver.
Qed.

(** ** The credential store *)

Lemma loadApiKey_unfold (env : Env) (w : World) :
  loadApiKey env w =
  match FS.read (fs w) (CONFIG_PATH env) with
  | Ok text =>
      match JSON.parse (Fse.strip_bom text) with
      | Some config =>
          match get_prop config "apiKey" with
          | Ok key => (Ok key, w)
          | Throw _ => (Ok Null, w)
          end
      | None => (Ok Null, w)
      end
  | Throw _ => (Ok Null, w)
  end.
Proof.
  unfold loadApiKey, Fse.readJson, try_catch, bind, ask, lift, ret, throw.
  destruct (FS.read _ _); [|done].
  destruct (JSON.parse _); [|done].
  by destruct (get_prop _ _).
Qed.

(** [loadApiKey] never throws and changes nothing. *)
Lemma loadApiKey_total (env : Env) (w : World) :
  ∃ key, loadApiKey env w = (Ok key, w).
Proof.
  rewrite loadApiKey_unfold.
  destruct (FS.read _ _); [|by eexists].
  destruct (JSON.parse _); [|by eexists].
  destruct (get_prop _ _); by eexists.
Qed.



(** ** The network *)

Lemma rejection_failed (req : request) (r : net_result) :
  Axios.rejection req r = None ↔ failed r = false.
Proof.
  unfold Axios.rejection, failed. destruct r as [status body|msg]; [|done].
  destruct (ok_status status); naive_solver.
Qed.

Lemma failed_rejection (req : request) (r : net_result) :
  failed r = true → ∃ e, Axios.rejection req r = Some e.
Proof.
  intros H. destruct (Axios.rejection req r) as [e|] eqn:Hr; [by eexists|].
  apply rejection_failed in Hr. congruence.
Qed.

(** ** publish without a credential *)

(** C3. When the credential store yields no credential (what [loadApiKey]
    returns is falsy), [publish] prints the not-connected message and
    returns: no request is sent and no file is touched. *)
Theorem publish_requires_credential (rev : revision) (env : Env)
  (filePath : string) (files : gmap path node) (key : value) :
  stored_key env files = Ok key →
  truthy key = false →
  run (publish_action rev filePath) env files
  = mk_world files [(Stderr, not_connected)] [].
Proof.
  unfold stored_key, run, publish_action, bind. intros Hkey Hfalsy.
  destruct (loadApiKey_total env (boot files)) as [key' Hload].
  rewrite Hload in Hkey |- *. cbn in Hkey. simplify_eq.
  by rewrite Hfalsy.
Qed.

Lemma publish_requires_credential_witness :
  run (publish_action flam_js "foo.zip") Example.env Example.files
  = mk_world Example.files [(Stderr, not_connected)] [].
Proof.
  apply (publish_requires_credential flam_js Example.env "foo.zip" Example.files Null);
    reflexivity.
Defined.

(** ** login *)

Ltac run_command :=
  unfold run, boot, bind, try_catch, ret, throw, lift, ask,
    console_log, console_error, print, with_fs; cbn.

(** C2. If a request of [login] fails, the files (and so the credential
    store) are as they were; the files change only when the
    authentication request and the API-token request have both
    succeeded. *)
Theorem login_failure_keeps_store (env : Env) (email password : string)
  (files : gmap path node) :
  let w' := run (login_action email password) env files in
  (Exists (fun x => failed (snd x) = true) (net w') → fs w' = files)
  ∧ (fs w' ≠ files →
     ∃ token,
       net w' = [ (login_request email password,
                   server env (login_request email password));
                  (api_token_request token, server env (api_token_request token)) ]
       ∧ failed (server env (login_request email password)) = false
       ∧ failed (server env (api_token_request token)) = false).
Proof.
  unfold login_action, Axios.post, Axios.send, saveApiKey, Fse.writeJson.
  run_command.
  fold (login_request email password).
  destruct (Axios.rejection (login_request email password) _) eqn:H1; cbn.
  { split; [done|]. intros []. done. }
  destruct (get_prop _ "token") as [token|] eqn:Htoken; cbn.
  2:{ split; [done|]. intros []. done. }
  fold (api_token_request token).
  destruct (Axios.rejection (api_token_request token) _) eqn:H2; cbn.
  { split; [done|]. intros []. done. }
  apply rejection_failed in H1, H2.
  destruct (get_prop _ "api_token") as [apiKey|]; cbn.
  2:{ split; [done|]. intros []. done. }
  destruct (FS.write _ _ _); cbn.
  - split.
    + intros Hex. apply Exists_cons in Hex as [Hex|Hex]; [cbn in Hex; congruence|].
      apply Exists_cons in Hex as [Hex|Hex]; [cbn in Hex; congruence|].
      by apply Exists_nil in Hex.
    + intros _. by exists token.
  - split; [done|]. intros []. done.
Qed.

Lemma login_failure_keeps_store_witness :
  fs (run (login_action "smaug@erebor" "gold") Example.offline_env Example.files)
  = Example.files
  ∧ ∃ token,
      net (run (login_action "smaug@erebor" "gold") Example.env Example.files)
      = [ (login_request "smaug@erebor" "gold",
           server Example.env (login_request "smaug@erebor" "gold"));
          (api_token_request token, server Example.env (api_token_request token)) ]
      ∧ failed (server Example.env (login_request "smaug@erebor" "gold")) = false
      ∧ failed (server Example.env (api_token_request token)) = false.
Proof.
  split.
  - apply (login_failure_keeps_store Example.offline_env "smaug@erebor" "gold"
             Example.files).
    vm_compute. apply Exists_cons_hd. reflexivity.
  - apply (login_failure_keeps_store Example.env "smaug@erebor" "gold" Example.files).
    intros H.
    apply (f_equal (fun m : gmap path node => m !! CONFIG_PATH Example.env)) in H.
    vm_compute in H. discriminate.
Defined.

(** ** Paths *)

Lemma components_no_slash (s : string) :
  Path.no_slash s = true → Path.components s = [s].
Proof.
  induction s as [|c s IH]; [done|]. cbn.
  destruct (Ascii.eqb c "/"); [done|]. cbn. intros H. by rewrite (IH H).
Qed.

(** [path.join] with a plain name goes one level down. *)
Lemma join_name (p : path) (s : string) :
  Path.no_slash s = true → 2 < String.length s → Path.join p s = p ++ [s].
Proof.
  intros Hs Hlen. unfold Path.join. rewrite (components_no_slash _ Hs). cbn.
  unfold Path.enter.
  destruct (String.eqb_spec s "") as [->|_]; [cbn in Hlen; lia|].
  destruct (String.eqb_spec s ".") as [->|_]; [cbn in Hlen; lia|].
  destruct (String.eqb_spec s "..") as [->|_]; [cbn in Hlen; lia|].
  done.
Qed.

Lemma archive_name_length (n : string) (v : value) :
  2 < String.length (archive_name n v).
Proof. unfold archive_name. rewrite !length_append. cbn. lia. Qed.

Lemma join_archive_name (p : path) (n : string) (v : value) :
  Path.no_slash (archive_name n v) = true →
  Path.join p (archive_name n v) = p ++ [archive_name n v].
Proof. intros H. apply join_name; [done | apply archive_name_length]. Qed.

(** ** Directories and write streams *)

(** [mkdir -p] adds directories and leaves everything else as it is. *)
Lemma make_dirs_lookup (rest : list string) :
  ∀ (files files' : gmap path node) (base q : path),
    FS.make_dirs files base rest = Ok files' →
    files' !! q = files !! q ∨ (files !! q = None ∧ files' !! q = Some Dir).
Proof.
  induction rest as [|seg rest IH]; intros files files' base q; cbn.
  - intros [= ->]. by left.
  - destruct (files !! (base ++ [seg])) as [[|content]|] eqn:Hd; [|done|].
    + apply IH.
    + intros H. destruct (IH _ _ _ q H) as [Hq|[Hq1 Hq2]].
      * destruct (decide (q = base ++ [seg])) as [->|Hne].
        -- right. rewrite Hq, lookup_insert_eq. done.
        -- left. by rewrite Hq, lookup_insert_ne.
      * destruct (decide (q = base ++ [seg])) as [->|Hne].
        -- by rewrite lookup_insert_eq in Hq1.
        -- right. by rewrite lookup_insert_ne in Hq1.
Qed.

(** A stream that is not cut short leaves all the chunks in the file. *)
Lemma pump_all (chunks : list string) :
  ∀ (budget : option nat) (files : gmap path node) (p : path) (content : string),
    files !! p = Some (File content) →
    (∀ k, budget = Some k → length chunks ≤ k) →
    FS.pump budget files p chunks
    = (Ok tt, <[p := File (content +:+ String.concat "" chunks)]> files).
Proof.
  induction chunks as [|c chunks IH]; intros budget files p content Hp Hk.
  - cbn. rewrite append_nil_r. by rewrite insert_id.
  - rewrite concat_cons, <- append_assoc.
    destruct budget as [[|k]|]; cbn.
    + specialize (Hk 0 eq_refl). cbn in Hk. lia.
    + rewrite (append_lookup _ _ _ _ Hp).
      rewrite (IH (Some k) _ p (content +:+ c)).
      * by rewrite insert_insert_eq.
      * apply lookup_insert_eq.
      * intros k' [= <-]. specialize (Hk (S k) eq_refl). cbn in Hk. lia.
    + rewrite (append_lookup _ _ _ _ Hp).
      rewrite (IH None _ p (content +:+ c)).
      * by rewrite insert_insert_eq.
      * apply lookup_insert_eq.
      * done.
Qed.

(** A stream cut short on its [k]-th chunk leaves the chunks before it in
    the file and raises an error. *)
Lemma pump_partial (chunks : list string) :
  ∀ (k : nat) (files : gmap path node) (p : path) (content : string),
    files !! p = Some (File content) →
    k < length chunks →
    FS.pump (Some k) files p chunks
    = (Throw FS.no_space,
       <[p := File (content +:+ String.concat "" (take k chunks))]> files).
Proof.
  induction chunks as [|c chunks IH]; intros k files p content Hp Hk; cbn in Hk; [lia|].
  destruct k as [|k].
  - cbn. rewrite append_nil_r. by rewrite insert_id.
  - rewrite firstn_cons, concat_cons, <- append_assoc. cbn [FS.pump].
    rewrite (append_lookup _ _ _ _ Hp).
    rewrite (IH k (<[p := File (content +:+ c)]> files) p (content +:+ c)).
    + by rewrite insert_insert_eq.
    + apply lookup_insert_eq.
    + lia.
Qed.

(** A stream that ended well was not cut short. *)
Lemma pump_ok (chunks : list string) :
  ∀ (budget : option nat) (files files' : gmap path node) (p : path) (content : string),
    files !! p = Some (File content) →
    FS.pump budget files p chunks = (Ok tt, files') →
    files' = <[p := File (content +:+ String.concat "" chunks)]> files.
Proof.
  intros budget files files' p content Hp H.
  destruct budget as [k|].
  - destruct (decide (k < length chunks)) as [Hlt|Hge].
    + rewrite (pump_partial chunks k files p content Hp Hlt) in H. congruence.
    + rewrite (pump_all chunks (Some k) files p content Hp) in H; [congruence|].
      intros k' [= <-]. lia.
  - rewrite (pump_all chunks None files p content Hp) in H; [congruence|done].
Qed.

(** ** install *)

Lemma resolved_version_inv (env : Env) (n : string) (version : value) :
  resolved_version env n = Some version →
  Axios.rejection (details_request n) (server env (details_request n)) = None
  ∧ get_prop (answer_data (server env (details_request n))) "version" = Ok version.
Proof.
  unfold resolved_version. cbn.
  destruct (Axios.rejection _ _); [done|].
  destruct (get_prop _ _); naive_solver.
Qed.

Lemma downloaded_inv (env : Env) (n : string) (version : value) (chunks : list string) :
  downloaded env n version = Some chunks →
  Axios.rejection (download_request n version) (server env (download_request n version)) = None
  ∧ Axios.body_of (server env (download_request n version)) = chunks.
Proof.
  unfold downloaded. cbn. destruct (Axios.rejection _ _); naive_solver.
Qed.

Ltac run_install :=
  unfold install_action, Axios.get, Axios.get_stream, Axios.send,
    Fse.ensureDir, Fse.pipe_to_file;
  run_command.

(** What [install] does once the archive is being written: the outcome of
    the write stream decides between the success message and the error
    message, and the files are those the stream leaves. *)
Lemma install_stream (env : Env) (n : string) (files with_dir opened : gmap path node)
  (version : value) (chunks : list string) :
  resolved_version env n = Some version →
  downloaded env n version = Some chunks →
  FS.ensure_dir files (install_dir env) = Ok with_dir →
  FS.open_write with_dir (Path.join (install_dir env) (archive_name n version)) = Ok opened →
  run (install_action n) env files
  = let out := FS.pump (write_budget env) opened
                 (Path.join (install_dir env) (archive_name n version)) chunks in
    mk_world (snd out)
      [ (Stdout, "Recherche de " +:+ n +:+ "...");
        (Stdout, "Téléchargement de " +:+ n +:+ "@" +:+ to_string version +:+ "...");
        match fst out with
        | Ok _ => (Stdout, installed_line n)
        | Throw e => (Stderr, error_prefix (Install n) +:+ error_text e (not_found n))
        end ]
      [ (details_request n, server env (details_request n));
        (download_request n version, server env (download_request n version)) ].
Proof.
  intros [Hd Hv]%resolved_version_inv [Hg Hb]%downloaded_inv Hdir Hopen.
  unfold details_request, download_request, answer_data in *.
  run_install.
  rewrite Hd. cbn. rewrite Hv. cbn. rewrite Hg. cbn. rewrite Hb.
  rewrite Hdir. cbn. rewrite Hopen.
  destruct (FS.pump _ _ _ _) as [[[]|e] files']; reflexivity.
Qed.

(** An install that ended on its success message went through every step. *)
Lemma install_success_inv (env : Env) (n : string) (files : gmap path node)
  (version : value) :
  resolved_version env n = Some version →
  installed n (run (install_action n) env files) →
  ∃ chunks with_dir opened,
    downloaded env n version = Some chunks
    ∧ FS.ensure_dir files (install_dir env) = Ok with_dir
    ∧ FS.open_write with_dir (Path.join (install_dir env) (archive_name n version))
      = Ok opened
    ∧ FS.pump (write_budget env) opened
        (Path.join (install_dir env) (archive_name n version)) chunks
      = (Ok tt, fs (run (install_action n) env files)).
Proof.
  intros Hres.
  destruct (downloaded env n version) as [chunks|] eqn:Hdl.
  2:{ apply resolved_version_inv in Hres as [Hd Hv].
      unfold downloaded, installed, details_request, download_request, answer_data in *.
      revert Hdl. run_install. rewrite Hd. cbn. rewrite Hv. cbn.
      destruct (Axios.rejection (Axios.get_stream_request _) _); [|done].
      cbn. by intros _ [=]. }
  destruct (FS.ensure_dir files (install_dir env)) as [with_dir|] eqn:Hdir.
  2:{ apply resolved_version_inv in Hres as [Hd Hv].
      apply downloaded_inv in Hdl as [Hg Hb].
      unfold installed, details_request, download_request, answer_data in *.
      run_install. rewrite Hd. cbn. rewrite Hv. cbn. rewrite Hg. cbn.
      rewrite Hdir. cbn. by intros [=]. }
  destruct (FS.open_write with_dir (Path.join (install_dir env) (archive_name n version)))
    as [opened|] eqn:Hopen.
  2:{ apply resolved_version_inv in Hres as [Hd Hv].
      apply downloaded_inv in Hdl as [Hg Hb].
      unfold installed, details_request, download_request, answer_data in *.
      run_install. rewrite Hd. cbn. rewrite Hv. cbn. rewrite Hg. cbn.
      rewrite Hdir. cbn. rewrite Hopen. cbn. by intros [=]. }
  rewrite (install_stream env n files with_dir opened version chunks) by done.
  unfold installed. cbn.
  destruct (FS.pump _ _ _ _) as [[[]|e] files'] eqn:Hpump; cbn; [|done].
  intros _. by exists chunks, with_dir, opened.
Qed.

(** C5. When the details lookup fails, [install] stops there: one request
    was sent, the failure is printed, and the files are as they were (no
    directory was made, no file was opened). *)
Theorem install_lookup_failure (env : Env) (n : string) (files : gmap path node) :
  failed (server env (details_request n)) = true →
  let w' := run (install_action n) env files in
  fs w' = files
  ∧ net w' = [(details_request n, server env (details_request n))]
  ∧ ∃ line, console w' = [ (Stdout, "Recherche de " +:+ n +:+ "...");
                           (Stderr, error_prefix (Install n) +:+ line) ].
Proof.
  intros [e He]%(failed_rejection (details_request n)).
  unfold details_request in *. run_install. rewrite He. cbn. eauto.
Qed.

Lemma install_lookup_failure_witness :
  fs (run (install_action "nothing") Example.env Example.files) = Example.files
  ∧ net (run (install_action "nothing") Example.env Example.files)
    = [(details_request "nothing", server Example.env (details_request "nothing"))]
  ∧ ∃ line, console (run (install_action "nothing") Example.env Example.files)
            = [ (Stdout, "Recherche de " +:+ "nothing" +:+ "...");
                (Stderr, error_prefix (Install "nothing") +:+ line) ].
Proof.
  apply (install_lookup_failure Example.env "nothing" Example.files). reflexivity.
Defined.

Lemma error_text_plain (msg fallback : string) :
  error_text (plain_error msg) fallback = fallback.
Proof. reflexivity. Qed.

(** The archive of a plain name. A successful install of [n] at the resolved
    version [v], when the name [n-v.zip] holds no slash, has written
    exactly one file: [n-v.zip] in the installation directory, holding the
    downloaded bytes.  No other file is new: every other path is as it was,
    or is a directory made on the way to the installation directory. *)
Theorem install_writes_archive (env : Env) (n : string) (files : gmap path node)
  (version : value) :
  Path.no_slash (archive_name n version) = true →
  resolved_version env n = Some version →
  installed n (run (install_action n) env files) →
  let w' := run (install_action n) env files in
  let target := install_dir env ++ [archive_name n version] in
  (∃ chunks, downloaded env n version = Some chunks
             ∧ fs w' !! target = Some (File (String.concat "" chunks)))
  ∧ ∀ q, q ≠ target →
         fs w' !! q = files !! q ∨ (files !! q = None ∧ fs w' !! q = Some Dir).
Proof.
  intros Hname Hres Hok w' target.
  destruct (install_success_inv env n files version Hres Hok)
    as (chunks & with_dir & opened & Hdl & Hdir & Hopen & Hpump).
  rewrite (join_archive_name _ _ _ Hname) in Hopen, Hpump. fold target in Hopen, Hpump.
  apply open_write_lookup in Hopen as [_ ->].
  apply (pump_ok _ _ _ _ _ "") in Hpump; [|apply lookup_insert_eq].
  rewrite insert_insert_eq in Hpump. fold w' in Hpump. rewrite Hpump. split.
  - exists chunks. split; [done|]. by rewrite lookup_insert_eq.
  - intros q Hq. rewrite lookup_insert_ne by done.
    by apply (make_dirs_lookup (install_dir env) files with_dir []).
Qed.

Lemma install_writes_archive_witness :
  (∃ chunks, downloaded Example.env "foo" (Str "1.2.0") = Some chunks
             ∧ fs (run (install_action "foo") Example.env Example.files)
                 !! (install_dir Example.env ++ [archive_name "foo" (Str "1.2.0")])
               = Some (File (String.concat "" chunks)))
  ∧ ∀ q, q ≠ install_dir Example.env ++ [archive_name "foo" (Str "1.2.0")] →
         fs (run (install_action "foo") Example.env Example.files) !! q
         = Example.files !! q
         ∨ (Example.files !! q = None
            ∧ fs (run (install_action "foo") Example.env Example.files) !! q
              = Some Dir).
Proof.
  apply (install_writes_archive Example.env "foo" Example.files (Str "1.2.0"));
    vm_compute; reflexivity.
Defined.

(** C7 on a package name that holds [..]. The registry knows [../x] at
    [1.2.0]; [install] downloads it and prints that the package is
    installed in [flam_modules], the directory its comment says the archive
    is saved in; but the archive is [x-1.2.0.zip] in the working directory,
    next to [flam_modules], which stays empty. *)
Theorem install_archive_outside_flam_modules :
  let w' := run (install_action "../x") Example.env Example.files in
  resolved_version Example.env "../x" = Some (Str "1.2.0")
  ∧ last (console w')
    = Some (Stdout, "✅ Paquet ../x installé avec succès dans `flam_modules` !")
  ∧ fs w'
    = <[ ["work"; "x-1.2.0.zip"] := File "PKzipdata" ]>
        (<[ ["work"; "flam_modules"] := Dir ]> Example.files).
Proof. split_and!; [vm_compute; reflexivity | vm_compute; reflexivity | reflexivity]. Qed.

(** What a write error leaves behind: the error message, and the file the
    stream was opened on, holding the chunks written before the error. *)
Lemma install_write_error (env : Env) (n : string)
  (files with_dir opened : gmap path node) (version : value)
  (chunks : list string) (k : nat) :
  resolved_version env n = Some version →
  downloaded env n version = Some chunks →
  FS.ensure_dir files (install_dir env) = Ok with_dir →
  FS.open_write with_dir (Path.join (install_dir env) (archive_name n version)) = Ok opened →
  write_budget env = Some k →
  k < length chunks →
  stderr_lines (run (install_action n) env files)
  = [error_prefix (Install n) +:+ not_found n]
  ∧ fs (run (install_action n) env files)
      !! Path.join (install_dir env) (archive_name n version)
    = Some (File (String.concat "" (take k chunks))).
Proof.
  intros Hres Hdl Hdir Hopen Hbudget Hk.
  rewrite (install_stream env n files with_dir opened version chunks) by done.
  rewrite Hbudget. apply open_write_lookup in Hopen as [_ ->].
  rewrite (pump_partial chunks k _ _ "") by (done || apply lookup_insert_eq).
  cbn. unfold FS.no_space. by rewrite error_text_plain, lookup_insert_eq.
Qed.

(** The partial archive of a plain name. For a package whose archive name [n-v.zip]
    holds no slash: when the write stream fails on its [k]-th chunk,
    [install] prints its error message and removes nothing; the file
    [n-v.zip] in the installation directory holds the chunks written
    before the failure. *)
Theorem install_write_error_leaves_partial_file (env : Env) (n : string)
  (files with_dir opened : gmap path node) (version : value)
  (chunks : list string) (k : nat) :
  Path.no_slash (archive_name n version) = true →
  resolved_version env n = Some version →
  downloaded env n version = Some chunks →
  FS.ensure_dir files (install_dir env) = Ok with_dir →
  FS.open_write with_dir (install_dir env ++ [archive_name n version]) = Ok opened →
  write_budget env = Some k →
  k < length chunks →
  let w' := run (install_action n) env files in
  stderr_lines w' = [error_prefix (Install n) +:+ not_found n]
  ∧ fs w' !! (install_dir env ++ [archive_name n version])
    = Some (File (String.concat "" (take k chunks))).
Proof.
  intros Hname Hres Hdl Hdir Hopen Hbudget Hk.
  rewrite <- (join_archive_name _ _ _ Hname) in Hopen |- *.
  by eapply install_write_error.
Qed.

Lemma install_write_error_leaves_partial_file_witness :
  stderr_lines (run (install_action "foo") Example.failing_disk_env Example.files)
  = [error_prefix (Install "foo") +:+ not_found "foo"]
  ∧ fs (run (install_action "foo") Example.failing_disk_env Example.files)
      !! (install_dir Example.failing_disk_env ++ [archive_name "foo" (Str "1.2.0")])
    = Some (File (String.concat "" (take 1 ["PK"; "zip"; "data"]))).
Proof.
  eapply (install_write_error_leaves_partial_file Example.failing_disk_env "foo"
            Example.files _ _ (Str "1.2.0") ["PK"; "zip"; "data"] 1).
  - vm_compute. reflexivity.
  - vm_compute. reflexivity.
  - vm_compute. reflexivity.
  - reflexivity.
  - reflexivity.
  - reflexivity.
  - cbn. lia.
Defined.

(** C10 on a package name that holds [..]. With a disk that fails on the
    second chunk, [install] of [../x] prints its error and removes nothing:
    the partial archive stays, but as [x-1.2.0.zip] in the working
    directory, not in [flam_modules]. *)
Theorem partial_archive_outside_flam_modules :
  let w' := run (install_action "../x") Example.failing_disk_env Example.files in
  stderr_lines w'
  = [ "Erreur d'installation : Le paquet " +:+ ch dquote +:+ "../x" +:+ ch dquote
      +:+ " n'a pas été trouvé." ]
  ∧ fs w'
    = <[ ["work"; "x-1.2.0.zip"] := File "PK" ]>
        (<[ ["work"; "flam_modules"] := Dir ]> Example.files).
Proof. split; [vm_compute; reflexivity | reflexivity]. Qed.

(** ** search *)

Lemma to_uint_nonnil (n : nat) : Nat.to_uint n ≠ Decimal.Nil.
Proof.
  intros H. pose proof (DecimalNat.Unsigned.of_to n) as Hn.
  rewrite H in Hn. cbn in Hn. subst n. discriminate.
Qed.

Lemma nat_repr_inj (n m : nat) : nat_repr n = nat_repr m → n = m.
Proof.
  unfold nat_repr. intros H. apply (f_equal NilZero.uint_of_string) in H.
  rewrite !NilZero.usu in H by apply to_uint_nonnil.
  injection H. apply DecimalNat.Unsigned.to_uint_inj.
Qed.

Lemma array_length (items : list value) :
  get_prop (Arr items) "length" = Ok (Num (nat_repr (length items))).
Proof. reflexivity. Qed.

(** [data.length === 0] on an array. *)
Lemma array_length_zero (items : list value) :
  strict_eq_num (Num (nat_repr (length items))) 0 = bool_decide (items = []).
Proof.
  cbn. destruct (String.eqb_spec (nat_repr (length items)) (nat_repr 0)) as [H|H].
  - apply nat_repr_inj in H. destruct items; [done|discriminate].
  - destruct items; [done|]. by rewrite bool_decide_eq_false_2.
Qed.

Lemma get_prop_ok (v : value) (k : string) :
  nullish v = false → ∃ x, get_prop v k = Ok x.
Proof. unfold get_prop. destruct v; cbn; try done; eauto. Qed.

(** A result that is not [null] has its line. *)
Lemma render_result_ok (pkg : value) :
  nullish pkg = false → ∃ line, render_result pkg = Ok line.
Proof.
  intros H. unfold render_result.
  destruct (get_prop_ok pkg "package_name" H) as [? ->].
  destruct (get_prop_ok pkg "version" H) as [? ->].
  destruct (get_prop_ok pkg "description" H) as [? ->].
  destruct (get_prop_ok pkg "author" H) as [? ->].
  eauto.
Qed.

Lemma print_result_ok (pkg : value) (line : string) (env : Env) (w : World) :
  render_result pkg = Ok line →
  print_result pkg env w
  = (Ok tt, mk_world (fs w) (console w ++ [(Stdout, line)]) (net w)).
Proof. intros H. unfold print_result, bind, lift, console_log, print. by rewrite H. Qed.

Lemma print_result_throw (pkg : value) (e : js_error) (env : Env) (w : World) :
  render_result pkg = Throw e → print_result pkg env w = (Throw e, w).
Proof. intros H. unfold print_result, bind, lift. by rewrite H. Qed.

Lemma for_each_cons {A} (x : A) (l : list A) (f : A → M unit) (env : Env) (w : World) :
  for_each (x :: l) f env w
  = match f x env w with
    | (Ok _, w') => for_each l f env w'
    | (Throw e, w') => (Throw e, w')
    end.
Proof. reflexivity. Qed.

(** The loop over the results prints their lines, in their order. *)
Lemma for_each_results (items : list value) :
  Forall (fun pkg => nullish pkg = false) items →
  ∀ env w, ∃ lines,
    Forall2 (fun pkg line => render_result pkg = Ok line) items lines
    ∧ for_each items print_result env w
      = (Ok tt, mk_world (fs w) (console w ++ map (pair Stdout) lines) (net w)).
Proof.
  induction 1 as [|pkg items Hpkg _ IH]; intros env w.
  - exists []. split; [constructor|]. cbn. unfold ret. rewrite app_nil_r.
    by destruct w.
  - destruct (render_result_ok pkg Hpkg) as [line Hline].
    destruct (IH env (mk_world (fs w) (console w ++ [(Stdout, line)]) (net w)))
      as (lines & Hlines & Hrun).
    exists (line :: lines). split; [by constructor|].
    rewrite for_each_cons, (print_result_ok _ _ _ _ Hline), Hrun. cbn.
    by rewrite <- app_assoc.
Qed.

(** The loop sends nothing, whatever the results are. *)
Lemma for_each_results_net (items : list value) :
  ∀ env w, net (snd (for_each items print_result env w)) = net w.
Proof.
  induction items as [|pkg items IH]; intros env w; [done|].
  rewrite for_each_cons.
  destruct (render_result pkg) as [line|e] eqn:Hline.
  - rewrite (print_result_ok _ _ _ _ Hline). by rewrite IH.
  - by rewrite (print_result_throw _ _ _ _ Hline).
Qed.

Lemma stdout_lines_stdout (lines : list string) :
  omap (fun l => match fst l with Stdout => Some (snd l) | Stderr => None end)
    (map (pair Stdout) lines) = lines.
Proof. induction lines as [|l lines IH]; cbn; [done|]. by rewrite IH. Qed.

Lemma stderr_lines_stdout (lines : list string) :
  omap (fun l => match fst l with Stderr => Some (snd l) | Stdout => None end)
    (map (pair Stdout) lines) = [].
Proof. induction lines as [|l lines IH]; cbn; done. Qed.

Ltac run_search :=
  unfold search_action, Axios.get, Axios.send; run_command.

Lemma listable_nullish (pkg : value) : listable pkg = true → nullish pkg = false.
Proof. unfold listable. by destruct (nullish pkg). Qed.

(** The line of a result, spelled out. *)
Lemma render_result_text (pkg : value) :
  nullish pkg = false →
  render_result pkg
  = Ok (to_string (field pkg "package_name") +:+ "@"
        +:+ to_string (field pkg "version") +:+ " - "
        +:+ to_string (field pkg "description") +:+ " ("
        +:+ to_string (field pkg "author") +:+ ")").
Proof.
  intros H. unfold render_result, field.
  destruct (get_prop_ok pkg "package_name" H) as [? ->].
  destruct (get_prop_ok pkg "version" H) as [? ->].
  destruct (get_prop_ok pkg "description" H) as [? ->].
  destruct (get_prop_ok pkg "author" H) as [? ->].
  done.
Qed.

Lemma rendered_lines (items : list value) (lines : list string) :
  Forall (fun pkg => nullish pkg = false) items →
  Forall2 (fun pkg line => render_result pkg = Ok line) items lines →
  lines
  = map (fun pkg =>
           to_string (field pkg "package_name") +:+ "@"
           +:+ to_string (field pkg "version") +:+ " - "
           +:+ to_string (field pkg "description") +:+ " ("
           +:+ to_string (field pkg "author") +:+ ")") items.
Proof.
  intros Hitems Hlines. revert Hitems.
  induction Hlines as [|pkg line items lines Hline _ IH]; intros Hitems; [done|].
  apply Forall_cons in Hitems as [Hpkg Hitems].
  rewrite (render_result_text pkg Hpkg) in Hline. injection Hline as <-.
  cbn [map]. by rewrite <- IH.
Qed.

(** C6. A search answered with an array of results that print: the
    progress line comes first; an empty array gives the no-results line and
    nothing else; [N] results give [N] lines, one per result in the order
    of the answer, each [name@version - description (author)] with the four
    fields as text. Nothing goes to the error output. *)
Theorem search_rendering (env : Env) (query : string) (files : gmap path node)
  (items : list value) :
  failed (server env (search_request query)) = false →
  answer_data (server env (search_request query)) = Arr items →
  Forall (fun pkg => listable pkg = true) items →
  let w' := run (search_action query) env files in
  stderr_lines w' = []
  ∧ stdout_lines w'
    = ("Recherche de paquets pour " +:+ ch dquote +:+ query +:+ ch dquote +:+ "...")
      :: match items with
         | [] => ["Aucun paquet trouvé."]
         | _ =>
             map (fun pkg =>
                    to_string (field pkg "package_name") +:+ "@"
                    +:+ to_string (field pkg "version") +:+ " - "
                    +:+ to_string (field pkg "description") +:+ " ("
                    +:+ to_string (field pkg "author") +:+ ")") items
         end.
Proof.
  intros Hok%(rejection_failed (search_request query)) Hdata Hlistable.
  assert (Forall (fun pkg => nullish pkg = false) items) as Hitems.
  { eapply Forall_impl; [exact Hlistable|]. intros pkg. apply listable_nullish. }
  unfold search_request, answer_data in *.
  run_search. rewrite Hok. cbn. rewrite Hdata.
  rewrite array_length, array_length_zero. case_bool_decide as Hnil.
  - subst items. by cbn.
  - destruct (for_each_results items Hitems env
                (mk_world files [(Stdout, searching_line query)]
                   [(Axios.get_request (search_url query),
                     server env (Axios.get_request (search_url query)))]))
      as (lines & Hlines & ->).
    unfold stderr_lines, stdout_lines. cbn.
    rewrite stderr_lines_stdout, stdout_lines_stdout.
    split; [done|]. rewrite (rendered_lines items lines Hitems Hlines).
    by destruct items.
Qed.

Lemma search_rendering_witness :
  (stderr_lines (run (search_action "ice") Example.env Example.files) = []
   ∧ stdout_lines (run (search_action "ice") Example.env Example.files)
     = [ "Recherche de paquets pour " +:+ ch dquote +:+ "ice" +:+ ch dquote +:+ "...";
         "Aucun paquet trouvé." ])
  ∧ (stderr_lines (run (search_action "fire") Example.env Example.files) = []
     ∧ stdout_lines (run (search_action "fire") Example.env Example.files)
       = [ "Recherche de paquets pour " +:+ ch dquote +:+ "fire" +:+ ch dquote +:+ "...";
           "fire@1.0.0 - breath (smaug)";
           "fireproof@0.2.0 - armor (bard)" ]).
Proof.
  split.
  - apply (search_rendering Example.env "ice" Example.files []);
      [reflexivity | vm_compute; reflexivity | constructor].
  - apply (search_rendering Example.env "fire" Example.files
             [ Obj [("package_name", Str "fire"); ("version", Str "1.0.0");
                    ("description", Str "breath"); ("author", Str "smaug")];
               Obj [("package_name", Str "fireproof"); ("version", Str "0.2.0");
                    ("description", Str "armor"); ("author", Str "bard")] ]);
      [reflexivity | vm_compute; reflexivity | by repeat constructor].
Defined.

(** The one request of [search]. *)
Lemma search_requests (env : Env) (query : string) (files : gmap path node) :
  net (run (search_action query) env files)
  = [(search_request query, server env (search_request query))].
Proof.
  unfold search_request. run_search.
  destruct (Axios.rejection _ _); cbn; [done|].
  destruct (get_prop _ "length") as [len|]; cbn; [|done].
  destruct (strict_eq_num len 0); cbn; [done|].
  destruct (Axios.decode_body _) as [| |b|s|s|items|props]; cbn; try done.
  pose proof (for_each_results_net items env
                (mk_world files [(Stdout, searching_line query)]
                   [(Axios.get_request (search_url query),
                     server env (Axios.get_request (search_url query)))])) as Hnet.
  destruct (for_each items print_result env _) as [[[]|e] w1]; cbn in *; done.
Qed.

(** C9, as the script has it. [search] sends one request, and its URL is
    the base, [/packages/search?q=] and the query as it was typed: nothing
    is encoded, escaped or checked. *)
Theorem search_sends_query_verbatim (env : Env) (query : string)
  (files : gmap path node) :
  ∃ r, net (run (search_action query) env files)
       = [(Axios.get_request (API_URL +:+ "/packages/search?q=" +:+ query), r)].
Proof. eexists. apply search_requests. Qed.

(** A query of letters, digits and unreserved marks is its own encoding:
    for such a query the request is the one C9 words. *)
Lemma url_encode_unreserved (query : string) :
  Spec.all_unreserved query = true → Spec.url_encode query = query.
Proof.
  induction query as [|c query IH]; [done|]. cbn.
  destruct (Spec.unreserved c); [|done]. cbn. intros H. by rewrite (IH H).
Qed.

(** C9, as worded, fails on a query with a reserved character: the query
    [a&b c] goes out as it is, not as [a%26b%20c]. *)
Lemma search_query_not_encoded :
  ¬ Spec.search_sends_encoded_query "a&b c" Example.env Example.files.
Proof.
  intros [r H]. rewrite search_requests in H.
  injection H as Hurl _. vm_compute in Hurl. discriminate.
Qed.

(** ** Error messages *)











(** ** publish: the version that is sent *)

Lemma publish_parts (files : gmap path node) (wd : path)
  (name version description : value) (filePath : string) :
  FormData.parts files wd (publish_form name version description filePath)
  = match FS.read_typed files wd filePath with
    | Ok content =>
        Ok [ ("packageName", PField name); ("version", PField version);
             ("description", PField description); ("package", PFile content) ]
    | Throw e => Throw e
    end.
Proof.
  cbv [publish_form FormData.append app FormData.parts].
  by destruct (FS.read_typed _ _ _).
Qed.

Lemma read_manifest (env : Env) (files : gmap path node) (pkgJson : value) :
  manifest env files = Some pkgJson →
  ∃ text, FS.read files (Path.join (cwd env) "package.json") = Ok text
          ∧ JSON.parse (Fse.strip_bom text) = Some pkgJson.
Proof.
  unfold manifest, file_text. rewrite (join_name _ "package.json") by (done || cbn; lia).
  destruct (files !! _) as [[|text]|] eqn:Hfile; try done.
  intros Hparse. exists text. split; [|done].
  apply read_file; [|done]. by destruct (cwd env).
Qed.

(** In every revision, the [version] part of the upload is the manifest's
    property named by [version_source]: its [version], but its [name] in
    [part_002]. *)
Lemma publish_version_part (rev : revision) (env : Env) (filePath : string)
  (files : gmap path node) (pkgJson : value) (x : request * net_result) :
  manifest env files = Some pkgJson →
  In x (net (run (publish_action rev filePath) env files)) →
  ∃ version,
    get_prop pkgJson (version_source rev) = Ok version
    ∧ sent_part x "version" = Some (PField version).
Proof.
  intros (text & Hread & Hparse)%read_manifest.
  unfold run, publish_action, bind.
  destruct (loadApiKey_total env (boot files)) as [apiKey ->].
  destruct (truthy apiKey); cbn; [|done].
  unfold Fse.readJson, FormData.post, Axios.send. run_command.
  rewrite Hread. cbn. rewrite Hparse. cbn.
  destruct (get_prop pkgJson "name"); cbn; [|done].
  destruct (get_prop pkgJson (version_source rev)) as [version|]; cbn; [|done].
  destruct (get_prop pkgJson "description"); cbn; [|done].
  rewrite publish_parts.
  destruct (FS.read_typed _ _ _); cbn; [|done].
  destruct (Axios.rejection _ _); cbn; [|destruct (get_prop _ "message"); cbn];
    (intros [<-|[]]; by exists version).
Qed.

(** C1 on the four revisions. On a project whose manifest has the name
    [foo] and the version [1.0.0], [part_002] sends [foo] as the version;
    [flam.js] and the two other revisions send [1.0.0]. *)
Theorem publish_part_002_sends_name_as_version :
  manifest Example.env Example.project
  = Some (Obj [("name", Str "foo"); ("version", Str "1.0.0");
               ("description", Str "a package")])
  ∧ (∃ x, net (run (publish_action part_002 "foo.zip") Example.env Example.project) = [x]
          ∧ sent_part x "version" = Some (PField (Str "foo")))
  ∧ Forall (fun rev =>
      ∃ x, net (run (publish_action rev "foo.zip") Example.env Example.project) = [x]
           ∧ sent_part x "version" = Some (PField (Str "1.0.0")))
      [flam_js; part_000; part_001].
Proof.
  split_and!.
  - vm_compute. reflexivity.
  - eexists. split; vm_compute; reflexivity.
  - repeat constructor; eexists; (split; vm_compute; reflexivity).
Qed.

(** * More properties of the four commands *)

(** ** publish: the manifest guard *)

Lemma manifest_read (env : Env) (files : gmap path node) (text : string) :
  FS.read files (Path.join (cwd env) "package.json") = Ok text →
  manifest env files = JSON.parse (Fse.strip_bom text).
Proof. intros H%read_text. unfold manifest. by rewrite H. Qed.

(** X1. With a credential but no usable manifest in the working directory
    (no [package.json], not a file, not JSON, or the JSON [null]),
    [publish] prints the manifest error and returns: nothing is sent and no
    file is touched. *)
Theorem publish_requires_manifest (rev : revision) (env : Env) (filePath : string)
  (files : gmap path node) (key : value) :
  stored_key env files = Ok key →
  truthy key = true →
  (∀ pkgJson, manifest env files = Some pkgJson → pkgJson = Null) →
  run (publish_action rev filePath) env files
  = mk_world files [(Stderr, manifest_unreadable)] [].
Proof.
  unfold stored_key, run, publish_action, bind. intros Hkey Htruthy Hbad.
  destruct (loadApiKey_total env (boot files)) as [key' Hload].
  rewrite Hload in Hkey |- *. cbn in Hkey. simplify_eq. rewrite Htruthy. cbn.
  unfold Fse.readJson. run_command.
  destruct (FS.read _ _) as [text|] eqn:Hread; cbn; [|done].
  rewrite (manifest_read _ _ _ Hread) in Hbad.
  destruct (JSON.parse _) as [pkgJson|]; cbn; [|done].
  by rewrite (Hbad pkgJson eq_refl).
Qed.

Lemma publish_requires_manifest_witness :
  run (publish_action flam_js "foo.zip") Example.env Scenario.broken_project
  = mk_world Scenario.broken_project [(Stderr, manifest_unreadable)] [].
Proof.
  apply (publish_requires_manifest flam_js Example.env "foo.zip"
           Scenario.broken_project (Str "dragon-key")).
  - vm_compute. reflexivity.
  - reflexivity.
  - intros pkgJson H. vm_compute in H. discriminate.
Defined.

(** ** What the commands never do *)

(** The loop over the results writes no file, whatever the results are. *)
Lemma for_each_results_fs (items : list value) :
  ∀ env w, fs (snd (for_each items print_result env w)) = fs w.
Proof.
  induction items as [|pkg items IH]; intros env w; [done|].
  rewrite for_each_cons.
  destruct (render_result pkg) as [line|e] eqn:Hline.
  - rewrite (print_result_ok _ _ _ _ Hline). by rewrite IH.
  - by rewrite (print_result_throw _ _ _ _ Hline).
Qed.

Lemma search_leaves_files (env : Env) (query : string) (files : gmap path node) :
  fs (run (search_action query) env files) = files.
Proof.
  run_search.
  destruct (Axios.rejection _ _); cbn; [done|].
  destruct (get_prop _ "length") as [len|]; cbn; [|done].
  destruct (strict_eq_num len 0); cbn; [done|].
  destruct (Axios.decode_body _) as [| |b|s|s|items|props]; cbn; try done.
  pose proof (for_each_results_fs items env
                (mk_world files [(Stdout, searching_line query)]
                   [(Axios.get_request (search_url query),
                     server env (Axios.get_request (search_url query)))])) as Hfs.
  destruct (for_each items print_result env _) as [[[]|e] w1]; cbn in *; done.
Qed.

Lemma publish_leaves_files (rev : revision) (env : Env) (filePath : string)
  (files : gmap path node) :
  fs (run (publish_action rev filePath) env files) = files.
Proof.
  unfold run, publish_action, bind.
  destruct (loadApiKey_total env (boot files)) as [apiKey ->].
  destruct (truthy apiKey); cbn; [|done].
  unfold Fse.readJson, FormData.post, Axios.send. run_command.
  destruct (FS.read _ _); cbn; [|done].
  destruct (JSON.parse _) as [pkgJson|]; cbn; [|done].
  destruct (get_prop pkgJson "name"); cbn; [|done].
  destruct (get_prop pkgJson (version_source rev)); cbn; [|done].
  destruct (get_prop pkgJson "description"); cbn; [|done].
  destruct (FormData.parts _ _ _); cbn; [|done].
  destruct (Axios.rejection _ _); cbn; [done|].
  by destruct (get_prop _ "message").
Qed.

(** X2. [search] and [publish] change no file, whatever the registry
    answers and whatever the files are: they only read. *)
Theorem search_and_publish_only_read (env : Env) (files : gmap path node) :
  (∀ query, fs (run (search_action query) env files) = files)
  ∧ (∀ rev filePath, fs (run (publish_action rev filePath) env files) = files).
Proof.
  split; [intros query; apply search_leaves_files|].
  intros rev filePath. apply publish_leaves_files.
Qed.

(** ** login and the credential store *)

Lemma config_path (env : Env) :
  CONFIG_PATH env = homedir env ++ [".flamconfig.json"].
Proof. unfold CONFIG_PATH. apply join_name; [done | cbn; lia]. Qed.

Lemma config_dirname (env : Env) : Path.dirname (CONFIG_PATH env) = homedir env.
Proof. rewrite config_path. unfold Path.dirname. apply removelast_last. Qed.

(** [fs.writeFile] goes through when the directory is there and the path
    is not a directory. *)
Lemma write_ok (files : gmap path node) (p : path) (content : string) :
  p ≠ [] → FS.is_dir files (Path.dirname p) = true → files !! p ≠ Some Dir →
  FS.write files p content = Ok (<[p := File content]> files).
Proof.
  intros Hp Hdir Hnode. unfold FS.write, FS.open_write.
  destruct p as [|seg p]; [done|]. rewrite Hdir.
  assert (∀ opened, opened = <[seg :: p := File ""]> files →
            Ok (FS.append opened (seg :: p) content)
            = Ok (<[seg :: p := File content]> files)) as Hdone.
  { intros opened ->. erewrite append_lookup by apply lookup_insert_eq.
    by rewrite insert_insert_eq. }
  repeat case_match; simplify_eq; first [by apply Hdone | by exfalso; apply Hnode].
Qed.


(** [login] when both requests are answered well: the key is written, and
    the outcome of the write decides the last line. *)
Lemma login_run (env : Env) (email password : string) (files : gmap path node)
  (token apiKey : value) :
  login_answers env email password token apiKey →
  run (login_action email password) env files
  = match FS.write files (CONFIG_PATH env) (config_text apiKey) with
    | Ok files' =>
        mk_world files' [(Stdout, connecting); (Stdout, connected)]
          [ (login_request email password, server env (login_request email password));
            (api_token_request token, server env (api_token_request token)) ]
    | Throw e =>
        mk_world files
          [(Stdout, connecting);
           (Stderr, "Erreur de connexion : " +:+ error_text e (message e))]
          [ (login_request email password, server env (login_request email password));
            (api_token_request token, server env (api_token_request token)) ]
    end.
Proof.
  intros (H1%(rejection_failed (login_request email password)) & Htoken
          & H2%(rejection_failed (api_token_request token)) & Hkey).
  unfold login_request, api_token_request, answer_data, config_text in *.
  unfold login_action, Axios.post, Axios.send, saveApiKey, Fse.writeJson.
  run_command.
  rewrite H1. cbn. rewrite Htoken. cbn. rewrite H2. cbn. rewrite Hkey. cbn.
  by destruct (FS.write _ _ _).
Qed.

(** X4. [login] touches one path only: every path other than the
    configuration file is after the command as it was before, whatever the
    registry answers. *)
Theorem login_touches_only_config (env : Env) (email password : string)
  (files : gmap path node) (q : path) :
  q ≠ CONFIG_PATH env →
  fs (run (login_action email password) env files) !! q = files !! q.
Proof.
  intros Hq.
  unfold login_action, Axios.post, Axios.send, saveApiKey, Fse.writeJson.
  run_command.
  destruct (Axios.rejection (Axios.post_request _ _ []) _); cbn; [done|].
  destruct (get_prop _ "token"); cbn; [|done].
  destruct (Axios.rejection (Axios.post_request _ _ [_]) _); cbn; [done|].
  destruct (get_prop _ "api_token"); cbn; [|done].
  destruct (FS.write _ _ _) as [files'|] eqn:Hwrite; cbn; [|done].
  apply write_result in Hwrite as [_ ->]. by rewrite lookup_insert_ne.
Qed.

Lemma login_touches_only_config_witness :
  fs (run (login_action "smaug@erebor" "gold") Example.env Example.project)
    !! (Example.work ++ ["package.json"])
  = Example.project !! (Example.work ++ ["package.json"]).
Proof.
  apply (login_touches_only_config Example.env "smaug@erebor" "gold" Example.project).
  intros H. vm_compute in H. discriminate.
Defined.

(** X5. When both requests of [login] are answered well, with a session
    token that is a text Node accepts in a header and an API key that is a
    text in ASCII, and the home directory is there and the configuration
    path is not a directory: [login] prints its two lines, the
    configuration file holds exactly the object with the one property
    [apiKey] as [JSON.stringify] writes it, and a newline, whatever it held
    before, and [loadApiKey] then returns that key. *)
Theorem login_stores_key (env : Env) (email password : string)
  (files : gmap path node) (token key : string) :
  login_answers env email password (Str token) (Str key) →
  header_safe token = true →
  ascii_text key = true →
  FS.is_dir files (homedir env) = true →
  files !! CONFIG_PATH env ≠ Some Dir →
  let w' := run (login_action email password) env files in
  fs w'
  = <[CONFIG_PATH env :=
        File (("{" +:+ (JSON.quote "apiKey" +:+ ":" +:+ JSON.quote key) +:+ "}")
              +:+ ch newline)]> files
  ∧ console w'
    = [ (Stdout, "Tentative de connexion...");
        (Stdout, "✅ Connexion réussie ! Votre clé API a été sauvegardée.") ]
  ∧ stored_key env (fs w') = Ok (Str key).
Proof.
  intros Hanswers _ _ Hhome Hnode w'. subst w'.
  rewrite (login_run env email password files (Str token) (Str key) Hanswers).
  rewrite write_ok; [|rewrite config_path; by destruct (homedir env)
                     |by rewrite config_dirname|done].
  split_and!; [done..|]. cbn.
  unfold stored_key, boot. rewrite loadApiKey_unfold. cbn [fs].
  erewrite read_file;
    [|rewrite config_path; by destruct (homedir env)|apply lookup_insert_eq].
  unfold config_text. by rewrite parse_saved.
Qed.

Lemma login_stores_key_witness :
  fs (run (login_action "smaug@erebor" "gold") Example.env Example.files)
  = <[CONFIG_PATH Example.env :=
        File (("{" +:+ (JSON.quote "apiKey" +:+ ":" +:+ JSON.quote "dragon-key") +:+ "}")
              +:+ ch newline)]> Example.files
  ∧ console (run (login_action "smaug@erebor" "gold") Example.env Example.files)
    = [ (Stdout, "Tentative de connexion...");
        (Stdout, "✅ Connexion réussie ! Votre clé API a été sauvegardée.") ]
  ∧ stored_key Example.env
      (fs (run (login_action "smaug@erebor" "gold") Example.env Example.files))
    = Ok (Str "dragon-key").
Proof.
  apply (login_stores_key Example.env "smaug@erebor" "gold" Example.files
           "jwt" "dragon-key").
  - repeat split; vm_compute; reflexivity.
  - reflexivity.
  - reflexivity.
  - reflexivity.
  - intros H. vm_compute in H. discriminate.
Defined.

Lemma saveApiKey_unfold (key : value) (env : Env) (w : World) :
  saveApiKey key env w
  = match FS.write (fs w) (CONFIG_PATH env) (config_text key) with
    | Ok files' => (Ok tt, mk_world files' (console w) (net w))
    | Throw e => (Throw e, w)
    end.
Proof.
  unfold saveApiKey, Fse.writeJson, with_fs, bind, ask, config_text.
  by destruct (FS.write _ _ _).
Qed.

(** What a successful [fs.writeFile] tells about the files it found. *)
Lemma write_inv (files files' : gmap path node) (p : path) (content : string) :
  FS.write files p content = Ok files' →
  FS.is_dir files (Path.dirname p) = true ∧ files !! p ≠ Some Dir.
Proof.
  unfold FS.write, FS.open_write. intros H.
  repeat case_match; simplify_eq; split; congruence.
Qed.

Lemma config_not_home (env : Env) : homedir env ≠ CONFIG_PATH env.
Proof.
  rewrite config_path. intros H. apply (f_equal length) in H.
  rewrite length_app in H. cbn in H. lia.
Qed.

Lemma is_dir_insert (files : gmap path node) (p d : path) (x : node) :
  d ≠ p → FS.is_dir (<[p := x]> files) d = FS.is_dir files d.
Proof. intros H. unfold FS.is_dir. destruct d; [done|]. by rewrite lookup_insert_ne. Qed.


(** X6. Saving over a saved key replaces it whole: after a successful
    [saveApiKey k1], [saveApiKey k2] succeeds too, [loadApiKey] returns
    [k2], and the files are those a single [saveApiKey k2] gives. *)
Theorem save_replaces_key (env : Env) (k1 k2 : string) (w w1 : World) :
  saveApiKey (Str k1) env w = (Ok tt, w1) →
  ∃ w2, saveApiKey (Str k2) env w1 = (Ok tt, w2)
        ∧ loadApiKey env w2 = (Ok (Str k2), w2)
        ∧ fs w2 = <[CONFIG_PATH env := File (config_text (Str k2))]> (fs w).
Proof.
  rewrite !saveApiKey_unfold.
  destruct (FS.write (fs w) _ _) as [files1|] eqn:Hw1; [|done].
  intros [= <-]. cbn [fs console net].
  destruct (write_inv _ _ _ _ Hw1) as [Hdir Hnode].
  apply write_result in Hw1 as [Hp ->].
  rewrite write_ok; [|done| |by rewrite lookup_insert_eq].
  2:{ rewrite is_dir_insert; [done|]. rewrite config_dirname. apply config_not_home. }
  eexists. split_and!; [done| |cbn; by rewrite insert_insert_eq].
  rewrite loadApiKey_unfold. cbn [fs].
  erewrite read_file; [|done|apply lookup_insert_eq].
  unfold config_text. by rewrite parse_saved.
Qed.

Lemma save_replaces_key_witness :
  ∃ w2, saveApiKey (Str "new-key") Example.env
          (mk_world (<[CONFIG_PATH Example.env := File (config_text (Str "old-key"))]>
                       Example.files) [] [])
        = (Ok tt, w2)
        ∧ loadApiKey Example.env w2 = (Ok (Str "new-key"), w2)
        ∧ fs w2 = <[CONFIG_PATH Example.env := File (config_text (Str "new-key"))]>
                    (fs (boot Example.files)).
Proof.
  apply (save_replaces_key Example.env "old-key" "new-key" (boot Example.files)).
  reflexivity.
Defined.






(** X9. [login] sends the authentication request first, always; it sends
    the API-token request only when the first was answered well, with the
    token of that answer as bearer; and it sends nothing else. *)
Theorem login_request_chain (env : Env) (email password : string)
  (files : gmap path node) :
  let w' := run (login_action email password) env files in
  let r1 := server env (login_request email password) in
  net w' = [(login_request email password, r1)]
  ∨ ∃ token,
      failed r1 = false
      ∧ get_prop (answer_data r1) "token" = Ok token
      ∧ net w' = [ (login_request email password, r1);
                   (api_token_request token, server env (api_token_request token)) ].
Proof.
  unfold login_action, Axios.post, Axios.send, saveApiKey, Fse.writeJson.
  run_command.
  fold (login_request email password).
  destruct (Axios.rejection (login_request email password) _) eqn:H1; cbn; [by left|].
  apply rejection_failed in H1.
  change (Axios.decode_body (String.concat "" (Axios.body_of
            (server env (login_request email password)))))
    with (answer_data (server env (login_request email password))).
  destruct (get_prop _ "token") as [token|] eqn:Htoken; cbn; [|by left].
  right. exists token. split_and!; [done..|].
  fold (api_token_request token).
  destruct (Axios.rejection (api_token_request token) _); cbn; [done|].
  destruct (get_prop _ "api_token"); cbn; [|done].
  by destruct (FS.write _ _ _).
Qed.

(** ** publish: what is sent *)

(** [publish] past its two guards: the form is sent when the archive can be
    read, and the answer decides the last line. *)
Lemma publish_run (rev : revision) (env : Env) (filePath : string)
  (files : gmap path node) (key pkgJson name version description : value) :
  stored_key env files = Ok key →
  truthy key = true →
  manifest env files = Some pkgJson →
  get_prop pkgJson "name" = Ok name →
  get_prop pkgJson (version_source rev) = Ok version →
  get_prop pkgJson "description" = Ok description →
  run (publish_action rev filePath) env files
  = let progress :=
      (Stdout, "Publication de " +:+ to_string name +:+ "@" +:+ to_string version +:+ "...") in
    match FS.read_typed files (cwd env) filePath with
    | Throw e =>
        mk_world files
          [progress; (Stderr, "Erreur de publication : " +:+ error_text e (message e))] []
    | Ok content =>
        let req := publish_request key name version description content in
        mk_world files
          [progress;
           match Axios.rejection req (server env req) with
           | Some e => (Stderr, "Erreur de publication : " +:+ error_text e (message e))
           | None =>
               match get_prop (answer_data (server env req)) "message" with
               | Ok msg => (Stdout, "✅ " +:+ to_string msg)
               | Throw e => (Stderr, "Erreur de publication : " +:+ error_text e (message e))
               end
           end]
          [(req, server env req)]
    end.
Proof.
  intros Hkey Htruthy (text & Hread & Hparse)%read_manifest Hname Hversion Hdesc.
  unfold stored_key, run, publish_request, answer_data, publish_action, bind in *.
  destruct (loadApiKey_total env (boot files)) as [key' Hload].
  rewrite Hload in Hkey |- *. cbn in Hkey. simplify_eq. rewrite Htruthy. cbn.
  unfold Fse.readJson, FormData.post, Axios.send. run_command.
  rewrite Hread. cbn. rewrite Hparse. cbn. rewrite Hname. cbn.
  rewrite Hversion. cbn. rewrite Hdesc. cbn. rewrite publish_parts.
  destruct (FS.read_typed _ _ _); cbn; [|done].
  destruct (Axios.rejection _ _); cbn; [done|].
  by destruct (get_prop _ "message").
Qed.

(** X10. Whatever [publish] sends is one POST to the publish endpoint, with
    the stored key as bearer and four parts: the manifest's [name] and
    [description], as [version] the manifest property the revision reads
    ([version]; [name] in [part_002]), and the bytes of the archive file
    taken relative to the working directory. *)
Theorem publish_request_shape (rev : revision) (env : Env) (filePath : string)
  (files : gmap path node) (key pkgJson : value) (x : request * net_result) :
  stored_key env files = Ok key →
  manifest env files = Some pkgJson →
  In x (net (run (publish_action rev filePath) env files)) →
  ∃ name version description content,
    get_prop pkgJson "name" = Ok name
    ∧ get_prop pkgJson (version_source rev) = Ok version
    ∧ get_prop pkgJson "description" = Ok description
    ∧ FS.read_typed files (cwd env) filePath = Ok content
    ∧ x = (publish_request key name version description content,
           server env (publish_request key name version description content))
    ∧ net (run (publish_action rev filePath) env files) = [x].
Proof.
  intros Hkey (text & Hread & Hparse)%read_manifest.
  unfold stored_key, run, publish_request, publish_action, bind in *.
  destruct (loadApiKey_total env (boot files)) as [key' Hload].
  rewrite Hload in Hkey |- *. cbn in Hkey. simplify_eq.
  destruct (truthy key); cbn; [|done].
  unfold Fse.readJson, FormData.post, Axios.send. run_command.
  rewrite Hread. cbn. rewrite Hparse. cbn.
  destruct (get_prop pkgJson "name") as [name|]; cbn; [|done].
  destruct (get_prop pkgJson (version_source rev)) as [version|]; cbn; [|done].
  destruct (get_prop pkgJson "description") as [description|]; cbn; [|done].
  rewrite publish_parts.
  destruct (FS.read_typed _ _ _) as [content|]; cbn; [|done].
  destruct (Axios.rejection _ _); cbn; [|destruct (get_prop _ "message"); cbn];
    (intros [<-|[]]; by exists name, version, description, content).
Qed.

Lemma publish_request_shape_witness :
  ∃ name version description content,
    get_prop (Obj [("name", Str "foo"); ("version", Str "1.0.0");
                   ("description", Str "a package")]) "name" = Ok name
    ∧ get_prop (Obj [("name", Str "foo"); ("version", Str "1.0.0");
                     ("description", Str "a package")]) (version_source flam_js)
      = Ok version
    ∧ get_prop (Obj [("name", Str "foo"); ("version", Str "1.0.0");
                     ("description", Str "a package")]) "description" = Ok description
    ∧ FS.read_typed Example.project (cwd Example.env) "foo.zip" = Ok content
    ∧ (publish_request (Str "dragon-key") (Str "foo") (Str "1.0.0") (Str "a package") "PK",
       HttpResponse 201 [JSON.stringify (Obj [("message", Str "ok")])])
      = (publish_request (Str "dragon-key") name version description content,
         server Example.env
           (publish_request (Str "dragon-key") name version description content))
    ∧ net (run (publish_action flam_js "foo.zip") Example.env Example.project)
      = [(publish_request (Str "dragon-key") (Str "foo") (Str "1.0.0")
            (Str "a package") "PK",
          HttpResponse 201 [JSON.stringify (Obj [("message", Str "ok")])])].
Proof.
  apply (publish_request_shape flam_js Example.env "foo.zip" Example.project
           (Str "dragon-key")).
  - vm_compute. reflexivity.
  - vm_compute. reflexivity.
  - left. vm_compute. reflexivity.
Defined.

(** X11. A [publish] by a user whose stored key is a text Node accepts in
    a header, in a project whose manifest gives the name, the version and
    the description as texts, of an archive the system finds at the path as
    typed: when the request is answered well with a message that prints,
    the command prints the progress line with the name and the version it
    sent, then the message after a check mark (the text [undefined] when
    the answer has none); it sends that one request and changes no file. *)
Theorem publish_success (rev : revision) (env : Env) (filePath : string)
  (files : gmap path node) (pkgJson msg : value)
  (key name version description content : string) :
  stored_key env files = Ok (Str key) →
  key ≠ "" →
  header_safe key = true →
  manifest env files = Some pkgJson →
  get_prop pkgJson "name" = Ok (Str name) →
  get_prop pkgJson (version_source rev) = Ok (Str version) →
  get_prop pkgJson "description" = Ok (Str description) →
  FS.read_typed files (cwd env) filePath = Ok content →
  let req :=
    mk_request POST "https://sarver-fullstack-4.onrender.com/packages/publish"
      [("Authorization", "Bearer " +:+ key)]
      (FormBody [ ("packageName", PField (Str name)); ("version", PField (Str version));
                  ("description", PField (Str description));
                  ("package", PFile content) ]) false in
  failed (server env req) = false →
  get_prop (answer_data (server env req)) "message" = Ok msg →
  printable msg = true →
  run (publish_action rev filePath) env files
  = mk_world files
      [ (Stdout, "Publication de " +:+ name +:+ "@" +:+ version +:+ "...");
        (Stdout, "✅ " +:+ to_string msg) ]
      [(req, server env req)].
Proof.
  intros Hkey Hnonempty _ Hmanifest Hname Hversion Hdesc Hread req
    Hok%(rejection_failed req) Hmsg _.
  assert (truthy (Str key) = true) as Htruthy.
  { cbn. by destruct (String.eqb_spec key ""). }
  rewrite (publish_run rev env filePath files (Str key) pkgJson (Str name)
             (Str version) (Str description)) by done.
  rewrite Hread. cbn zeta.
  change (publish_request (Str key) (Str name) (Str version) (Str description) content)
    with req.
  by rewrite Hok, Hmsg.
Qed.

Lemma publish_success_witness :
  run (publish_action flam_js "foo.zip") Example.env Example.project
  = mk_world Example.project
      [ (Stdout, "Publication de " +:+ "foo" +:+ "@" +:+ "1.0.0" +:+ "...");
        (Stdout, "✅ " +:+ to_string (Str "ok")) ]
      [(mk_request POST "https://sarver-fullstack-4.onrender.com/packages/publish"
          [("Authorization", "Bearer " +:+ "dragon-key")]
          (FormBody [ ("packageName", PField (Str "foo")); ("version", PField (Str "1.0.0"));
                      ("description", PField (Str "a package"));
                      ("package", PFile "PK") ]) false,
        server Example.env
          (mk_request POST "https://sarver-fullstack-4.onrender.com/packages/publish"
             [("Authorization", "Bearer " +:+ "dragon-key")]
             (FormBody [ ("packageName", PField (Str "foo")); ("version", PField (Str "1.0.0"));
                         ("description", PField (Str "a package"));
                         ("package", PFile "PK") ]) false))].
Proof.
  apply (publish_success flam_js Example.env "foo.zip" Example.project
           (Obj [("name", Str "foo"); ("version", Str "1.0.0");
                 ("description", Str "a package")])
           (Str "ok") "dragon-key" "foo" "1.0.0" "a package" "PK");
    first [done | vm_compute; reflexivity].
Defined.

(** ** install: requests, directories, bytes *)

(** X12. [install] sends the details request first, always; it sends the
    download request only when a version was resolved, for that package
    and that version; and it sends nothing else. *)
Theorem install_request_chain (env : Env) (n : string) (files : gmap path node) :
  let w' := run (install_action n) env files in
  net w' = [(details_request n, server env (details_request n))]
  ∨ ∃ version,
      resolved_version env n = Some version
      ∧ net w' = [ (details_request n, server env (details_request n));
                   (download_request n version,
                    server env (download_request n version)) ].
Proof.
  unfold resolved_version, details_request, download_request, answer_data.
  run_install.
  destruct (Axios.rejection (Axios.get_request _) _); cbn; [by left|].
  destruct (get_prop _ "version") as [version|]; cbn; [|by left].
  right. exists version. split; [done|].
  destruct (Axios.rejection (Axios.get_stream_request _) _); cbn; [done|].
  destruct (FS.ensure_dir _ _); cbn; [|done].
  destruct (FS.open_write _ _); cbn; [|done].
  by destruct (FS.pump _ _ _ _) as [[[]|] ?].
Qed.

(** A file on the way stops [mkdir -p]. *)
Lemma make_dirs_blocked (rest : list string) :
  ∀ (files : gmap path node) (base : path) (content : string),
    rest ≠ [] →
    files !! (base ++ rest) = Some (File content) →
    ∃ e, FS.make_dirs files base rest = Throw e ∧ response e = None.
Proof.
  induction rest as [|seg rest IH]; intros files base content Hrest Hfile; [done|].
  cbn. destruct (decide (rest = [])) as [->|Hne].
  - rewrite Hfile. by eexists.
  - replace (base ++ seg :: rest) with ((base ++ [seg]) ++ rest) in Hfile
      by by rewrite <- app_assoc.
    destruct (files !! (base ++ [seg])) as [[|other]|] eqn:Hd.
    + by apply (IH files (base ++ [seg]) content).
    + by eexists.
    + apply (IH _ (base ++ [seg]) content); [done|].
      rewrite lookup_insert_ne; [done|].
      intros H. apply (f_equal length) in H. rewrite !length_app in H.
      destruct rest; [done|]. cbn in H. lia.
Qed.

Lemma install_dir_path (env : Env) : install_dir env = cwd env ++ ["flam_modules"].
Proof. unfold install_dir. apply join_name; [done | cbn; lia]. Qed.

(** X13. When a file named [flam_modules] is in the working directory,
    [install] fails after its two requests: it prints the not-found
    message and leaves the files as they were. *)
Theorem install_dir_blocked (env : Env) (n : string) (files : gmap path node)
  (version : value) (chunks : list string) (content : string) :
  resolved_version env n = Some version →
  downloaded env n version = Some chunks →
  files !! install_dir env = Some (File content) →
  let w' := run (install_action n) env files in
  fs w' = files
  ∧ stderr_lines w' = [error_prefix (Install n) +:+ not_found n]
  ∧ ¬ installed n w'.
Proof.
  intros [Hd Hv]%resolved_version_inv [Hg Hb]%downloaded_inv Hfile.
  destruct (make_dirs_blocked (install_dir env) files [] content) as (e & He & Hplain).
  { rewrite install_dir_path. by destruct (cwd env). }
  { done. }
  unfold installed, details_request, download_request, answer_data in *.
  run_install. rewrite Hd. cbn. rewrite Hv. cbn. rewrite Hg. cbn.
  unfold FS.ensure_dir. rewrite He. cbn.
  destruct e as [msg resp]. cbn in Hplain. subst resp.
  rewrite (error_text_plain msg (not_found n)
           : error_text (mk_error msg None) (not_found n) = not_found n).
  done.
Qed.

Lemma install_dir_blocked_witness :
  fs (run (install_action "foo") Example.env Scenario.blocked) = Scenario.blocked
  ∧ stderr_lines (run (install_action "foo") Example.env Scenario.blocked)
    = [error_prefix (Install "foo") +:+ not_found "foo"]
  ∧ ¬ installed "foo" (run (install_action "foo") Example.env Scenario.blocked).
Proof.
  apply (install_dir_blocked Example.env "foo" Scenario.blocked (Str "1.2.0")
           ["PK"; "zip"; "data"] "not a directory").
  - vm_compute. reflexivity.
  - vm_compute. reflexivity.
  - reflexivity.
Defined.

(** X14. The bytes a successful [install] leaves in the file it opened are
    the bytes of the download, chunk after chunk, for any package name and
    any size of the body. *)
Theorem install_streams_bytes (env : Env) (n : string) (files : gmap path node)
  (version : value) :
  resolved_version env n = Some version →
  installed n (run (install_action n) env files) →
  ∃ chunks,
    downloaded env n version = Some chunks
    ∧ fs (run (install_action n) env files)
        !! Path.join (install_dir env) (archive_name n version)
      = Some (File (String.concat "" chunks)).
Proof.
  intros Hres Hok.
  destruct (install_success_inv env n files version Hres Hok)
    as (chunks & with_dir & opened & Hdl & Hdir & Hopen & Hpump).
  exists chunks. split; [done|].
  apply open_write_lookup in Hopen as [_ ->].
  apply (pump_ok _ _ _ _ _ "") in Hpump; [|apply lookup_insert_eq].
  rewrite Hpump. by rewrite lookup_insert_eq.
Qed.

Lemma install_streams_bytes_witness :
  ∃ chunks,
    downloaded Example.env "../x" (Str "1.2.0") = Some chunks
    ∧ fs (run (install_action "../x") Example.env Example.files)
        !! Path.join (install_dir Example.env) (archive_name "../x" (Str "1.2.0"))
      = Some (File (String.concat "" chunks)).
Proof.
  apply (install_streams_bytes Example.env "../x" Example.files (Str "1.2.0"));
    vm_compute; reflexivity.
Defined.

(** ** install: what it leaves alone *)

Section archive_paths.

#[local] Arguments String.append !_ _ : simpl nomatch.

(** The last piece of a path string that ends in [.zip] ends in [.zip]. *)
Lemma components_zip (s : string) :
  ∃ l x, Path.components (s +:+ ".zip") = l ++ [x +:+ ".zip"].
Proof.
  induction s as [|c s (l & x & IH)].
  - by exists [], "".
  - simpl. rewrite IH. destruct (Ascii.eqb c "/").
    + by exists ("" :: l), x.
    + destruct l as [|y l]; simpl.
      * by exists [], (String c x).
      * by exists (String c y :: l), x.
Qed.

Lemma enter_zip (p : path) (x : string) :
  Path.enter p (x +:+ ".zip") = p ++ [x +:+ ".zip"].
Proof.
  unfold Path.enter.
  destruct (String.eqb_spec (x +:+ ".zip") "") as [H|_];
    [apply (f_equal String.length) in H; rewrite length_append in H; cbn in H; lia|].
  destruct (String.eqb_spec (x +:+ ".zip") ".") as [H|_];
    [apply (f_equal String.length) in H; rewrite length_append in H; cbn in H; lia|].
  destruct (String.eqb_spec (x +:+ ".zip") "..") as [H|_];
    [apply (f_equal String.length) in H; rewrite length_append in H; cbn in H; lia|].
  done.
Qed.

Lemma join_zip (p : path) (s : string) :
  ∃ q x, Path.join p (s +:+ ".zip") = q ++ [x +:+ ".zip"].
Proof.
  destruct (components_zip s) as (l & x & H).
  exists (fold_left Path.enter l p), x.
  unfold Path.join. rewrite H, fold_left_app. cbn. apply enter_zip.
Qed.

Lemma zip_not_config (x : string) : x +:+ ".zip" ≠ ".flamconfig.json".
Proof.
  intros H.
  repeat (destruct x as [|? x]; simpl in H; [discriminate H | injection H as _ H]).
  destruct x; discriminate H.
Qed.

(** The archive is never written over the credential file. *)
Lemma archive_not_config (env : Env) (n : string) (version : value) :
  Path.join (install_dir env) (archive_name n version) ≠ CONFIG_PATH env.
Proof.
  unfold archive_name. rewrite config_path.
  replace (n +:+ "-" +:+ to_string version +:+ ".zip")
    with ((n +:+ "-" +:+ to_string version) +:+ ".zip")
    by (by rewrite !append_assoc).
  destruct (join_zip (install_dir env) (n +:+ "-" +:+ to_string version))
    as (q & x & ->).
  intros [_ H]%app_inj_tail. by apply zip_not_config in H.
Qed.

End archive_paths.

(** A write stream changes the file it was opened on, and no other. *)
Lemma pump_other (chunks : list string) :
  ∀ (budget : option nat) (files : gmap path node) (p q : path),
    q ≠ p → snd (FS.pump budget files p chunks) !! q = files !! q.
Proof.
  induction chunks as [|c chunks IH]; intros budget files p q Hq; [done|].
  assert (FS.append files p c !! q = files !! q) as Happ.
  { unfold FS.append. repeat case_match; by rewrite ?lookup_insert_ne. }
  destruct budget as [[|k]|]; cbn; [done| |]; by rewrite IH.
Qed.

(** What [loadApiKey] returns depends on the credential file only, and a
    directory in its place reads like no file. *)
Lemma stored_key_frame (env : Env) (files files' : gmap path node) :
  files' !! CONFIG_PATH env = files !! CONFIG_PATH env
  ∨ (files !! CONFIG_PATH env = None ∧ files' !! CONFIG_PATH env = Some Dir) →
  stored_key env files' = stored_key env files.
Proof.
  intros H. unfold stored_key. rewrite !loadApiKey_unfold. cbn [fs boot].
  assert (FS.read files' (CONFIG_PATH env) = FS.read files (CONFIG_PATH env)
          ∨ ∃ e e', FS.read files' (CONFIG_PATH env) = Throw e
                    ∧ FS.read files (CONFIG_PATH env) = Throw e') as [->|(e & e' & -> & ->)].
  { unfold FS.read. destruct (CONFIG_PATH env); [by left|].
    destruct H as [->|[-> ->]]; [by left | right; eauto]. }
  - by repeat case_match.
  - done.
Qed.

Lemma install_frame (env : Env) (n : string) (files : gmap path node) (q : path) :
  (∀ version, resolved_version env n = Some version →
              q ≠ Path.join (install_dir env) (archive_name n version)) →
  fs (run (install_action n) env files) !! q = files !! q
  ∨ (files !! q = None ∧ fs (run (install_action n) env files) !! q = Some Dir).
Proof.
  unfold resolved_version, details_request, answer_data.
  run_install.
  destruct (Axios.rejection (Axios.get_request _) _); cbn; [intros _; by left|].
  destruct (get_prop _ "version") as [version|]; cbn; [|intros _; by left].
  intros H. specialize (H version eq_refl).
  destruct (Axios.rejection (Axios.get_stream_request _) _); cbn; [by left|].
  destruct (FS.ensure_dir _ _) as [with_dir|] eqn:Hdir; cbn; [|by left].
  pose proof (make_dirs_lookup (install_dir env) files with_dir [] q Hdir) as Hq.
  destruct (FS.open_write _ _) as [opened|] eqn:Hopen; cbn; [|done].
  apply open_write_lookup in Hopen as [_ ->].
  destruct (FS.pump _ _ _ _) as [[[]|] files'] eqn:Hpump; cbn;
    apply (f_equal snd) in Hpump; cbn in Hpump; subst files';
    by rewrite pump_other, lookup_insert_ne.
Qed.



(** X16. [install] never changes the credential: whatever the package name,
    the answers of the registry and the state of the disk, [loadApiKey]
    returns after the command what it returned before. *)
Theorem install_keeps_credential (env : Env) (n : string) (files : gmap path node) :
  stored_key env (fs (run (install_action n) env files)) = stored_key env files.
Proof.
  apply stored_key_frame, install_frame.
  intros version _ H. by apply (archive_not_config env n version).
Qed.

(** ** search: answers that are not a list of records *)


(** X17. When a search is answered well with data that is not an array, the
    script goes by its [length]: with length [0] (an empty body) it prints
    the no-results line; otherwise (an object, a number, a text that is not
    JSON) it prints only the progress line and the error of [forEach]. *)
Theorem search_answer_not_a_list (env : Env) (query : string)
  (files : gmap path node) (data len : value) :
  failed (server env (search_request query)) = false →
  answer_data (server env (search_request query)) = data →
  (∀ items, data ≠ Arr items) →
  get_prop data "length" = Ok len →
  let w' := run (search_action query) env files in
  let progress :=
    "Recherche de paquets pour " +:+ ch dquote +:+ query +:+ ch dquote +:+ "..." in
  if strict_eq_num len 0
  then stdout_lines w' = [progress; "Aucun paquet trouvé."] ∧ stderr_lines w' = []
  else stdout_lines w' = [progress]
       ∧ stderr_lines w' = ["Erreur de recherche : res.data.forEach is not a function"].
Proof.
  intros Hok%(rejection_failed (search_request query)) Hdata Hlist Hlen.
  unfold search_request, answer_data in *.
  run_search. rewrite Hok. cbn. rewrite Hdata, Hlen. cbn.
  destruct (strict_eq_num len 0); cbn; [done|].
  destruct data; try done. exfalso. by eapply Hlist.
Qed.

Lemma search_answer_not_a_list_witness :
  (stdout_lines (run (search_action "void") Scenario.odd_env Example.files)
   = [ "Recherche de paquets pour " +:+ ch dquote +:+ "void" +:+ ch dquote +:+ "...";
       "Aucun paquet trouvé." ]
   ∧ stderr_lines (run (search_action "void") Scenario.odd_env Example.files) = [])
  ∧ (stdout_lines (run (search_action "wrapped") Scenario.odd_env Example.files)
     = [ "Recherche de paquets pour " +:+ ch dquote +:+ "wrapped" +:+ ch dquote +:+ "..." ]
     ∧ stderr_lines (run (search_action "wrapped") Scenario.odd_env Example.files)
       = ["Erreur de recherche : res.data.forEach is not a function"]).
Proof.
  split.
  - apply (search_answer_not_a_list Scenario.odd_env "void" Example.files
             (Str "") (Num "0")).
    + vm_compute. reflexivity.
    + vm_compute. reflexivity.
    + intros items. discriminate.
    + vm_compute. reflexivity.
  - apply (search_answer_not_a_list Scenario.odd_env "wrapped" Example.files
             (Obj [("results", Arr [])]) Undefined).
    + vm_compute. reflexivity.
    + vm_compute. reflexivity.
    + intros items. discriminate.
    + vm_compute. reflexivity.
Defined.




(** ** install, twice *)

(** The files [install] leaves, step by step. *)
Lemma install_fs (env : Env) (n : string) (files : gmap path node) :
  fs (run (install_action n) env files)
  = match resolved_version env n with
    | None => files
    | Some version =>
        match downloaded env n version with
        | None => files
        | Some chunks =>
            match FS.ensure_dir files (install_dir env) with
            | Throw _ => files
            | Ok with_dir =>
                let filePath := Path.join (install_dir env) (archive_name n version) in
                match FS.open_write with_dir filePath with
                | Throw _ => with_dir
                | Ok opened => snd (FS.pump (write_budget env) opened filePath chunks)
                end
            end
        end
    end.
Proof.
  unfold resolved_version, downloaded, details_request, download_request, answer_data.
  run_install.
  destruct (Axios.rejection (Axios.get_request _) _); cbn; [done|].
  destruct (get_prop _ "version") as [version|]; cbn; [|done].
  destruct (Axios.rejection (Axios.get_stream_request _) _); cbn; [done|].
  destruct (FS.ensure_dir _ _); cbn; [|done].
  destruct (FS.open_write _ _); cbn; [|done].
  by destruct (FS.pump _ _ _ _) as [[[]|] ?].
Qed.

(** [mkdir -p] on what [mkdir -p] left changes nothing. *)
Lemma make_dirs_idem (rest : list string) :
  ∀ (files files' : gmap path node) (base : path),
    FS.make_dirs files base rest = Ok files' →
    FS.make_dirs files' base rest = Ok files'.
Proof.
  induction rest as [|seg rest IH]; intros files files' base; [done|].
  cbn.
  destruct (files !! (base ++ [seg])) as [[|content]|] eqn:Hd; [|done|]; intros H;
    (assert (files' !! (base ++ [seg]) = Some Dir) as ->; [|by eapply IH]).
  - destruct (make_dirs_lookup _ _ _ _ (base ++ [seg]) H) as [Hq|[Hq _]];
      unfold Path.path in *; congruence.
  - destruct (make_dirs_lookup _ _ _ _ (base ++ [seg]) H) as [Hq|[Hq _]];
      rewrite lookup_insert_eq in Hq; unfold Path.path in *; congruence.
Qed.

(** A file written next to the directories does not undo them. *)
Lemma make_dirs_insert_file (rest : list string) :
  ∀ (files : gmap path node) (base p : path) (content : string),
    FS.make_dirs files base rest = Ok files →
    files !! p ≠ Some Dir →
    FS.make_dirs (<[p := File content]> files) base rest
    = Ok (<[p := File content]> files).
Proof.
  induction rest as [|seg rest IH]; intros files base p content; [done|].
  cbn.
  destruct (files !! (base ++ [seg])) as [[|other]|] eqn:Hd; [|done|]; intros H Hp.
  - rewrite lookup_insert_ne by (unfold Path.path in *; congruence).
    rewrite Hd. by apply IH.
  - destruct (make_dirs_lookup _ _ _ _ (base ++ [seg]) H) as [Hq|[Hq _]];
      rewrite lookup_insert_eq in Hq; unfold Path.path in *; congruence.
Qed.

Lemma open_write_inv (files files' : gmap path node) (p : path) :
  FS.open_write files p = Ok files' →
  FS.is_dir files (Path.dirname p) = true ∧ files !! p ≠ Some Dir.
Proof.
  unfold FS.open_write. intros H.
  repeat case_match; simplify_eq; split; congruence.
Qed.

Lemma dirname_neq (p : path) : p ≠ [] → Path.dirname p ≠ p.
Proof.
  intros Hp H. apply (f_equal length) in H. unfold Path.dirname in H.
  rewrite (app_removelast_last "" Hp) in H at 2. rewrite length_app in H.
  cbn in H. lia.
Qed.

(** A write stream leaves its file with some content, and the rest as it
    was. *)
Lemma pump_result (chunks : list string) (budget : option nat)
  (files : gmap path node) (p : path) (content : string) :
  files !! p = Some (File content) →
  ∃ content', snd (FS.pump budget files p chunks) = <[p := File content']> files.
Proof.
  intros Hp. destruct budget as [k|].
  - destruct (decide (k < length chunks)) as [Hlt|Hge].
    + rewrite (pump_partial chunks k files p content Hp Hlt). by eexists.
    + rewrite (pump_all chunks (Some k) files p content Hp); [by eexists|].
      intros k' [= <-]. lia.
  - rewrite (pump_all chunks None files p content Hp); [by eexists|done].
Qed.

(** X19. Installing again leaves the disk as the first install left it:
    with the registry answering as before, a second [install] of the same
    package on the files of the first gives those files again, whether the
    first one succeeded, failed on the way or was cut short while
    writing. *)
Theorem install_twice (env : Env) (n : string) (files : gmap path node) :
  let once := fs (run (install_action n) env files) in
  fs (run (install_action n) env once) = once.
Proof.
  cbn zeta. rewrite !install_fs.
  destruct (resolved_version env n) as [version|]; [|done].
  destruct (downloaded env n version) as [chunks|]; [|done]. cbn zeta.
  set (filePath := Path.join (install_dir env) (archive_name n version)).
  destruct (FS.ensure_dir files (install_dir env)) as [with_dir|] eqn:Hdir;
    [|by rewrite Hdir].
  unfold FS.ensure_dir in *.
  pose proof (make_dirs_idem _ _ _ _ Hdir) as Hidem.
  destruct (FS.open_write with_dir filePath) as [opened|] eqn:Hopen.
  - destruct (open_write_inv _ _ _ Hopen) as [Hparent Hnode].
    apply open_write_lookup in Hopen as [Hroot ->].
    destruct (pump_result chunks (write_budget env) (<[filePath := File ""]> with_dir)
                filePath "") as [content Hpump]; [apply lookup_insert_eq|].
    rewrite Hpump, insert_insert_eq.
    rewrite (make_dirs_insert_file _ _ _ _ content Hidem Hnode).
    assert (FS.open_write (<[filePath := File content]> with_dir) filePath
            = Ok (<[filePath := File ""]> with_dir)) as ->.
    { unfold FS.open_write. destruct filePath as [|seg rest] eqn:Hpath; [done|].
      rewrite is_dir_insert by by apply dirname_neq.
      rewrite Hparent, lookup_insert_eq. by rewrite insert_insert_eq. }
    by rewrite Hpump, insert_insert_eq.
  - by rewrite Hidem, Hopen.
Qed.

(** ** install: a download that is refused *)


